(** * VoigtFit: the component container

    A shallow embedding of [VoigtFit/container/components.py]: the
    [Component] class with its validating setters and its option
    dictionary, the fit-file loader [load_components_from_file] and the
    array builder [components_from_array].

    Conventions of the embedding.
    - Python numbers (the physical parameters, the values and standard
      errors of a parameter set) are rationals [Q]: every integer and every
      finite float is one, and [<], [>] and [abs] on them are exact.
      NaN and the infinities are outside this model; the setters are
      followed on them in the module [Floats].
    - A Python [str] is a [string]; a character is a code point below 256.
    - The files that can be opened for reading are a finite map from paths
      to texts, a text being what Python reads in text mode (decoded, with
      the line ends translated to the newline character).
    - An exception is a constructor of [exn]; code that can raise returns
      a [result].
    - [print] appends a line to the output a setter returns. *)

From Stdlib Require Import ZArith QArith Qabs String Ascii List Lia.
From Stdlib Require Import DecimalString DecimalZ.
From stdpp Require Import gmap strings list fin_maps.
Import ListNotations.

Open Scope string_scope.

(** ** Exceptions and results *)

Inductive exn : Type :=
| OSError      (* open() on a missing or unreadable path *)
| ValueError   (* int() or float() on a token that does not parse *)
| IndexError   (* list index out of range *)
| KeyError.    (* dict lookup of an absent key *)

Inductive result (A : Type) : Type :=
| Ok (a : A)
| Raise (e : exn).

Arguments Ok {A} a.
Arguments Raise {A} e.

Definition bind {A B : Type} (r : result A) (k : A -> result B) : result B :=
  match r with
  | Ok a => k a
  | Raise e => Raise e
  end.

Notation "'let*' x ':=' r 'in' k" := (bind r (fun x => k))
  (at level 10, x name, r at level 100, k at level 200).

Definition raises {A : Type} (r : result A) : Prop :=
  exists e, r = Raise e.

(** ** Comparisons of Python numbers *)

(** [x < y], as a boolean. *)
Definition py_lt (x y : Q) : bool := negb (Qle_bool y x).

(** [x > y]. *)
Definition py_gt (x y : Q) : bool := py_lt y x.

(** ** The Component class *)

(** The values the [var_] and [tie_] options take: a flag, [None], or the
    name of another parameter. *)
Inductive option_value : Type :=
| PyNone
| PyBool (flag : bool)
| PyStr (expr : string).

Record Component : Type := mkComponent {
  _z : Q;
  _b : Q;
  _logN : Q;
  _rf : Q;
  options : gmap string option_value
}.

(** [Component.__init__]: the four values are stored as they come, the
    eight options go into a fresh dictionary. *)
Definition Component_init (z b logN rf : Q)
    (var_z var_b var_N var_rf tie_z tie_b tie_N tie_rf : option_value)
    : Component :=
  {| _z := z;
     _b := b;
     _logN := logN;
     _rf := rf;
     options :=
       <["tie_rf" := tie_rf]> (<["tie_N" := tie_N]> (<["tie_b" := tie_b]>
       (<["tie_z" := tie_z]> (<["var_rf" := var_rf]> (<["var_N" := var_N]>
       (<["var_b" := var_b]> (<["var_z" := var_z]> ∅))))))) |}.

(** The constructor called with its keyword defaults:
    [var_*=True], [tie_*=None]. *)
Definition Component_new (z b logN rf : Q) : Component :=
  Component_init z b logN rf
    (PyBool true) (PyBool true) (PyBool true) (PyBool true)
    PyNone PyNone PyNone PyNone.

(** The property getters. *)
Definition Component_z (self : Component) : Q := _z self.
Definition Component_b (self : Component) : Q := _b self.
Definition Component_logN (self : Component) : Q := _logN self.
Definition Component_rf (self : Component) : Q := _rf self.

Definition warning_b : string :=
  " WARNING - Negative b is non-physical! Converting to absolute value.".

Definition warning_rf : string :=
  " WARNING - residual line flux not in [0,1] is non-physical!"
  ++ " Converting to nearest boundary value of [0,1].".

(** A setter returns the updated object and the lines it printed. *)
Definition set_z (self : Component) (val : Q) : Component * list string :=
  (mkComponent val (_b self) (_logN self) (_rf self) (options self), []).

Definition set_b (self : Component) (val : Q) : Component * list string :=
  if py_lt val 0 then
    (mkComponent (_z self) (Qabs val) (_logN self) (_rf self) (options self),
     [warning_b])
  else
    (mkComponent (_z self) val (_logN self) (_rf self) (options self), []).

Definition set_logN (self : Component) (val : Q) : Component * list string :=
  (mkComponent (_z self) (_b self) val (_rf self) (options self), []).

Definition set_rf (self : Component) (val : Q) : Component * list string :=
  if py_lt val 0 || py_gt val 1 then
    if py_gt val 1 then
      (mkComponent (_z self) (_b self) (_logN self) 1 (options self),
       [warning_rf])
    else if py_lt val 0 then
      (mkComponent (_z self) (_b self) (_logN self) 0 (options self),
       [warning_rf])
    else (self, [warning_rf])
  else
    (mkComponent (_z self) (_b self) (_logN self) val (options self), []).

(** [self.options[key] = value] *)
Definition set_option (self : Component) (key : string) (value : option_value)
    : Component :=
  mkComponent (_z self) (_b self) (_logN self) (_rf self)
              (<[key := value]> (options self)).

(** [return self.options[key]] *)
Definition get_option (self : Component) (key : string) : result option_value :=
  match options self !! key with
  | Some v => Ok v
  | None => Raise KeyError
  end.

Definition get_pars (self : Component) : list Q :=
  [Component_z self; Component_b self; Component_logN self; Component_rf self].

(** The eight names the constructor puts into [options]. *)
Definition option_keys : list string :=
  ["var_z"; "var_b"; "var_N"; "var_rf"; "tie_z"; "tie_b"; "tie_N"; "tie_rf"].

(** One write through the public interface of a Component: an assignment
    to [z], [b], [logN] or [rf], or a call of [set_option]. An assignment
    to one of the [tie_] and [var_] properties is [SetOption] under the
    name of the property. *)
Inductive mutation : Type :=
| SetZ (val : Q)
| SetB (val : Q)
| SetLogN (val : Q)
| SetRf (val : Q)
| SetOption (key : string) (value : option_value).

Definition mutate (self : Component) (m : mutation) : Component :=
  match m with
  | SetZ val => fst (set_z self val)
  | SetB val => fst (set_b self val)
  | SetLogN val => fst (set_logN self val)
  | SetRf val => fst (set_rf self val)
  | SetOption key value => set_option self key value
  end.

Definition mutate_all (self : Component) (ms : list mutation) : Component :=
  fold_left mutate ms self.

(** The invariant of the physical parameters. *)
Definition physical (self : Component) : Prop :=
  (0 <= Component_b self)%Q /\
  (0 <= Component_rf self)%Q /\ (Component_rf self <= 1)%Q.

(** ** Strings: the [str] methods the loader uses *)

(** [str.isspace] on one character: the white space among the code
    points below 256 (tab to carriage return, the four separators
    0x1c-0x1f, the space, NEL and the no-break space). *)
Definition isspace (c : ascii) : bool :=
  let n := N_of_ascii c in
  ((9 <=? n) && (n <=? 13) || (28 <=? n) && (n <=? 32)
   || (n =? 133) || (n =? 160))%N.

Fixpoint lstrip (s : string) : string :=
  match s with
  | EmptyString => EmptyString
  | String c s' => if isspace c then lstrip s' else s
  end.

Definition rstrip (s : string) : string :=
  String.rev (lstrip (String.rev s)).

(** [s.strip()] *)
Definition strip (s : string) : string := rstrip (lstrip s).

(** [s.split()]: the maximal runs of characters that are not white space.
    [tok] is the run being read, last character first. *)
Fixpoint split_go (tok : option string) (s : string) : list string :=
  match s with
  | EmptyString =>
      match tok with
      | Some t => [String.rev t]
      | None => []
      end
  | String c s' =>
      if isspace c then
        match tok with
        | Some t => String.rev t :: split_go None s'
        | None => split_go None s'
        end
      else
        match tok with
        | Some t => split_go (Some (String c t)) s'
        | None => split_go (Some (String c EmptyString)) s'
        end
  end.

Definition split (s : string) : list string := split_go None s.

Definition newline : ascii := ascii_of_N 10.

(** [f.readlines()] on the text of a file: the lines, each with the
    newline that ends it; a last line without newline is kept as it is. *)
Fixpoint readlines_go (cur : string) (text : string) : list string :=
  match text with
  | EmptyString =>
      match cur with
      | EmptyString => []
      | _ => [String.rev cur]
      end
  | String c text' =>
      if Ascii.eqb c newline then
        String.rev (String c cur) :: readlines_go EmptyString text'
      else readlines_go (String c cur) text'
  end.

Definition readlines (text : string) : list string :=
  readlines_go EmptyString text.

(** [s.replace(old, new)] for one-character [old] and [new]. *)
Fixpoint replace (old new : ascii) (s : string) : string :=
  match s with
  | EmptyString => EmptyString
  | String c s' =>
      String (if Ascii.eqb c old then new else c) (replace old new s')
  end.

(** ['%i' % num]: the decimal digits of [num], after a minus sign when it
    is negative. *)
Definition fmt_i (num : Z) : string := NilZero.string_of_int (Z.to_int num).

(** ['<field>%i_%s' % (num, ion)] *)
Definition fmt_name (field : string) (num : Z) (ion : string) : string :=
  field ++ fmt_i num ++ "_" ++ ion.

(** [l[i]] for a constant index [i >= 0]. *)
Definition getitem {A : Type} (l : list A) (i : nat) : result A :=
  match l !! i with
  | Some x => Ok x
  | None => Raise IndexError
  end.

(** ** The named parameter set

    [lmfit.Parameters] is a library class outside the repository. The
    container uses it as an ordered dictionary from names to entries with
    a value and a standard error. [Parameters_add] is the update of that
    dictionary, and the functions built on it give the names and values
    the container hands to the library. The library refuses a new name
    that is not a valid symbol name: [Parameters_add_checked], further
    down, is [pars.add] with that check, and the functions built on it
    give what the calls return. The expression engine of lmfit is not
    modelled. *)

Record lmfit_Parameter : Type := mkParameter {
  value : Q;
  stderr : option Q
}.

Definition lmfit_Parameters : Type := list (string * lmfit_Parameter).

(** The dictionary update of [pars.add(name, value=v)]: a new entry at the
    end, or a fresh entry in the place of the one with that name. *)
Fixpoint Parameters_add (name : string) (v : Q) (pars : lmfit_Parameters)
    : lmfit_Parameters :=
  match pars with
  | [] => [(name, mkParameter v None)]
  | (n, p) :: rest =>
      if String.eqb n name then (n, mkParameter v None) :: rest
      else (n, p) :: Parameters_add name v rest
  end.

(** [pars[name]] *)
Fixpoint Parameters_get (name : string) (pars : lmfit_Parameters)
    : result lmfit_Parameter :=
  match pars with
  | [] => Raise KeyError
  | (n, p) :: rest =>
      if String.eqb n name then Ok p else Parameters_get name rest
  end.

(** [pars[name].stderr = err] *)
Fixpoint Parameters_set_stderr (name : string) (err : Q)
    (pars : lmfit_Parameters) : result lmfit_Parameters :=
  match pars with
  | [] => Raise KeyError
  | (n, p) :: rest =>
      if String.eqb n name then
        Ok ((n, mkParameter (value p) (Some err)) :: rest)
      else
        let* rest' := Parameters_set_stderr name err rest in
        Ok ((n, p) :: rest')
  end.

Definition names (pars : lmfit_Parameters) : list string := map fst pars.

(** ** The file loader *)

(** One element of [components_to_add]:
    [[num, ion, z, b, logN, rf, z_err, b_err, logN_err, rf_err]]. *)
Record comp_pars : Type := mkCompPars {
  cp_num : Z;
  cp_ion : string;
  cp_z : Q;
  cp_b : Q;
  cp_logN : Q;
  cp_rf : Q;
  cp_z_err : Q;
  cp_b_err : Q;
  cp_logN_err : Q;
  cp_rf_err : Q
}.

(** The body of the second loop of [load_components_from_file]. *)
Definition add_component (pars : lmfit_Parameters) (c : comp_pars)
    : result lmfit_Parameters :=
  let ion := replace "*" "x" (cp_ion c) in
  let z_name := fmt_name "z" (cp_num c) ion in
  let b_name := fmt_name "b" (cp_num c) ion in
  let N_name := fmt_name "logN" (cp_num c) ion in
  let rf_name := fmt_name "rf" (cp_num c) ion in
  let pars := Parameters_add z_name (cp_z c) pars in
  let pars := Parameters_add b_name (cp_b c) pars in
  let pars := Parameters_add N_name (cp_logN c) pars in
  let pars := Parameters_add rf_name (cp_rf c) pars in
  let* pars := Parameters_set_stderr z_name (cp_z_err c) pars in
  let* pars := Parameters_set_stderr b_name (cp_b_err c) pars in
  let* pars := Parameters_set_stderr N_name (cp_logN_err c) pars in
  let* pars := Parameters_set_stderr rf_name (cp_rf_err c) pars in
  Ok pars.

Fixpoint add_components (components_to_add : list comp_pars)
    (pars : lmfit_Parameters) : result lmfit_Parameters :=
  match components_to_add with
  | [] => Ok pars
  | c :: rest =>
      let* pars' := add_component pars c in
      add_components rest pars'
  end.

Section Loader.

(** The builtins [int] and [float] on a token: the number, or [None]
    where Python raises [ValueError]. *)
Variable py_int : string -> option Z.
Variable py_float : string -> option Q.

Definition int (tok : string) : result Z :=
  match py_int tok with
  | Some n => Ok n
  | None => Raise ValueError
  end.

Definition float (tok : string) : result Q :=
  match py_float tok with
  | Some x => Ok x
  | None => Raise ValueError
  end.

(** The body of the first loop, for one line of the file. *)
Definition read_line (components_to_add : list comp_pars) (line : string)
    : result (list comp_pars) :=
  let line := strip line in
  let pars := split line in
  match line with
  | EmptyString => Ok components_to_add          (* len(line) == 0 *)
  | String c _ =>
      if Ascii.eqb c "#" then Ok components_to_add
      else if (length pars =? 8)%nat then
        let* t := getitem pars 0 in let* num := int t in
        let* ion := getitem pars 1 in
        let* t := getitem pars 2 in let* z := float t in
        let* t := getitem pars 3 in let* z_err := float t in
        let* t := getitem pars 4 in let* b := float t in
        let* t := getitem pars 5 in let* b_err := float t in
        let* t := getitem pars 6 in let* logN := float t in
        let* t := getitem pars 7 in let* logN_err := float t in
        let* t := getitem pars 8 in let* rf := float t in
        let* t := getitem pars 9 in let* rf_err := float t in
        Ok (components_to_add ++
            [mkCompPars num ion z b logN rf z_err b_err logN_err rf_err])%list
      else Ok components_to_add
  end.

Fixpoint read_lines (lines : list string) (components_to_add : list comp_pars)
    : result (list comp_pars) :=
  match lines with
  | [] => Ok components_to_add
  | line :: rest =>
      let* components_to_add' := read_line components_to_add line in
      read_lines rest components_to_add'
  end.

(** [fs] gives the text of every file that can be opened for reading and
    decoded; for any other path the model raises [OSError], as [open]
    does for a file that is missing or unreadable. A file that opens but
    does not decode, and a path that is no path at all, are outside the
    model. *)
Definition load_components_from_file (fs : gmap string string)
    (fname : string) : result lmfit_Parameters :=
  match fs !! fname with
  | None => Raise OSError
  | Some text =>
      let* components_to_add := read_lines (readlines text) [] in
      add_components components_to_add []
  end.

End Loader.

(** ** The array builder *)

(** [zip(z, b, logN, rf)]: as long as the shortest of the four. *)
Fixpoint zip4 (z b logN rf : list Q) : list (Q * Q * Q * Q) :=
  match z, b, logN, rf with
  | z0 :: z', b0 :: b', n0 :: logN', r0 :: rf' =>
      (z0, b0, n0, r0) :: zip4 z' b' logN' rf'
  | _, _, _, _ => []
  end.

(** [enumerate(l)], counting from [start]. *)
Fixpoint enumerate_from {A : Type} (start : nat) (l : list A)
    : list (nat * A) :=
  match l with
  | [] => []
  | x :: l' => (start, x) :: enumerate_from (S start) l'
  end.

Definition enumerate {A : Type} (l : list A) : list (nat * A) :=
  enumerate_from 0 l.

(** The body of the loop of [components_from_array]. *)
Definition add_vals (ion : string) (pars : lmfit_Parameters)
    (item : nat * (Q * Q * Q * Q)) : lmfit_Parameters :=
  let '(num, (v0, v1, v2, v3)) := item in
  let z_name := fmt_name "z" (Z.of_nat num) ion in
  let b_name := fmt_name "b" (Z.of_nat num) ion in
  let N_name := fmt_name "logN" (Z.of_nat num) ion in
  let rf_name := fmt_name "rf" (Z.of_nat num) ion in
  let pars := Parameters_add z_name v0 pars in
  let pars := Parameters_add b_name v1 pars in
  let pars := Parameters_add N_name v2 pars in
  let pars := Parameters_add rf_name v3 pars in
  pars.

Definition components_from_array (ion : string) (z b logN rf : list Q)
    : lmfit_Parameters :=
  fold_left (add_vals ion) (enumerate (zip4 z b logN rf)) [].

(** ** [int] and [float] on plain decimal tokens

    The tokens a fit file holds are written in plain decimal notation: an
    optional sign, digits, and for a float an optional point and more
    digits. On these tokens the builtins are the functions below; the
    other spellings Python accepts (exponents, [inf], [nan], underscores)
    are not covered, so the general results about the loader are stated
    for arbitrary [py_int] and [py_float]. *)

Definition digit (c : ascii) : option Z :=
  let n := N_of_ascii c in
  if ((48 <=? n) && (n <=? 57))%N then Some (Z.of_N n - 48)%Z else None.

(** The number a string of digits denotes, after the digits [acc]. *)
Fixpoint digits (acc : Z) (s : string) : option Z :=
  match s with
  | EmptyString => Some acc
  | String c s' =>
      match digit c with
      | Some d => digits (10 * acc + d)%Z s'
      | None => None
      end
  end.

(** The sign of a token and what follows it. *)
Definition signed (s : string) : Z * string :=
  match s with
  | String "-" s' => ((-1)%Z, s')
  | String "+" s' => (1%Z, s')
  | _ => (1%Z, s)
  end.

Definition decimal_int (tok : string) : option Z :=
  let '(sign, body) := signed tok in
  match body with
  | EmptyString => None
  | _ => n ← digits 0 body; Some (sign * n)%Z
  end.

(** The part of [s] before the first point, and the part after it. *)
Fixpoint at_point (s : string) : string * option string :=
  match s with
  | EmptyString => (EmptyString, None)
  | String c s' =>
      if Ascii.eqb c "." then (EmptyString, Some s')
      else let '(i, f) := at_point s' in (String c i, f)
  end.

Definition decimal_float (tok : string) : option Q :=
  let '(sign, body) := signed tok in
  let '(i, f) := at_point body in
  let f := default EmptyString f in
  match i ++ f with
  | EmptyString => None
  | _ =>
      n ← digits 0 (i ++ f);
      Some (Qmake (sign * n) (Z.to_pos (10 ^ Z.of_nat (String.length f))))
  end.

(** ** Lines of a fit file *)

(** A line that is neither blank nor a comment. *)
Definition is_data_line (line : string) : bool :=
  match strip line with
  | EmptyString => false
  | String c _ => negb (Ascii.eqb c "#")
  end.

(** [len(line.strip().split())] *)
Definition token_count (line : string) : nat :=
  length (split (strip line)).

(** The entries one component contributes to the parameter set, in the
    order [components_from_array] adds them. *)
Definition entries_of (ion : string) (item : nat * (Q * Q * Q * Q))
    : lmfit_Parameters :=
  let '(num, (v0, v1, v2, v3)) := item in
  [ (fmt_name "z" (Z.of_nat num) ion, mkParameter v0 None);
    (fmt_name "b" (Z.of_nat num) ion, mkParameter v1 None);
    (fmt_name "logN" (Z.of_nat num) ion, mkParameter v2 None);
    (fmt_name "rf" (Z.of_nat num) ion, mkParameter v3 None) ].

(** The four field prefixes of a parameter name. *)
Definition fields : list string := ["z"; "b"; "logN"; "rf"].

(** ** Fit files used as examples *)

Definition nl : string := String newline EmptyString.

(** The text of a fit file with a comment line, a blank line and one data
    line. *)
Definition fit_text (line : string) : string :=
  "# best-fit parameters" ++ nl ++ nl ++ line ++ nl.

(** The files that can be read: [dataset.fit], holding that text. *)
Definition fit_file (line : string) : gmap string string :=
  {[ "dataset.fit" := fit_text line ]}.

(** A data line with the ten tokens of the format. *)
Definition FeII_line : string :=
  "0 FeII 0.52341 0.00002 12.3 0.4 14.52 0.03 0.85 0.02".

(** The same line with a [z] that is not a number. *)
Definition bad_number_line : string :=
  "0 FeII abc 0.00002 12.3 0.4 14.52 0.03 0.85 0.02".

(** Lines cut after eight and after six tokens. *)
Definition eight_token_line : string :=
  "0 FeII 0.52341 0.00002 12.3 0.4 14.52 0.03".

Definition six_token_line : string :=
  "0 FeII 0.52341 0.00002 12.3 0.4".

(** The call [components_from_array("MgII", z=[0.1, 0.2], b=[5, 10],
    logN=[13, 14], rf=[0.9, 1.0])]. *)
Definition MgII_pars : lmfit_Parameters :=
  components_from_array "MgII" [0.1; 0.2]%Q [5; 10]%Q [13; 14]%Q [0.9; 1.0]%Q.

(** The call [components_from_array("Al*", z=[0.1, 0.2, 0.3],
    b=[5, 10, 15], logN=[13, 14, 15], rf=[0.9, 1.0, 0.5])]. *)
Definition Al_star_pars : lmfit_Parameters :=
  components_from_array "Al*"
    [0.1; 0.2; 0.3]%Q [5; 10; 15]%Q [13; 14; 15]%Q [0.9; 1.0; 0.5]%Q.

(** A data line for the component of index 2 of an excited state. *)
Definition Al_star_line : string :=
  "2 Al* 0.52341 0.00002 12.3 0.4 14.52 0.03 0.85 0.02".

(** ** The [tie_] and [var_] properties

    Each getter is [return self.options[<name>]] and each setter is
    [self.options[<name>] = val], with the name of the property as key. *)

(** [self.options[key]] *)
Definition options_getitem (self : Component) (key : string)
    : result option_value :=
  match options self !! key with
  | Some v => Ok v
  | None => Raise KeyError
  end.

(** [self.options[key] = val] *)
Definition options_setitem (self : Component) (key : string)
    (val : option_value) : Component :=
  mkComponent (_z self) (_b self) (_logN self) (_rf self)
              (<[key := val]> (options self)).

Definition tie_z (self : Component) := options_getitem self "tie_z".
Definition tie_b (self : Component) := options_getitem self "tie_b".
Definition tie_N (self : Component) := options_getitem self "tie_N".
Definition tie_rf (self : Component) := options_getitem self "tie_rf".
Definition var_z (self : Component) := options_getitem self "var_z".
Definition var_b (self : Component) := options_getitem self "var_b".
Definition var_N (self : Component) := options_getitem self "var_N".
Definition var_rf (self : Component) := options_getitem self "var_rf".

Definition set_tie_z (self : Component) (val : option_value) :=
  options_setitem self "tie_z" val.
Definition set_tie_b (self : Component) (val : option_value) :=
  options_setitem self "tie_b" val.
Definition set_tie_N (self : Component) (val : option_value) :=
  options_setitem self "tie_N" val.
Definition set_tie_rf (self : Component) (val : option_value) :=
  options_setitem self "tie_rf" val.
Definition set_var_z (self : Component) (val : option_value) :=
  options_setitem self "var_z" val.
Definition set_var_b (self : Component) (val : option_value) :=
  options_setitem self "var_b" val.
Definition set_var_N (self : Component) (val : option_value) :=
  options_setitem self "var_N" val.
Definition set_var_rf (self : Component) (val : option_value) :=
  options_setitem self "var_rf" val.

(** The properties by name. *)
Definition property_getters
    : list (string * (Component -> result option_value)) :=
  [ ("tie_z", tie_z); ("tie_b", tie_b); ("tie_N", tie_N); ("tie_rf", tie_rf);
    ("var_z", var_z); ("var_b", var_b); ("var_N", var_N); ("var_rf", var_rf) ].

Definition property_setters
    : list (string * (Component -> option_value -> Component)) :=
  [ ("tie_z", set_tie_z); ("tie_b", set_tie_b); ("tie_N", set_tie_N);
    ("tie_rf", set_tie_rf); ("var_z", set_var_z); ("var_b", set_var_b);
    ("var_N", set_var_N); ("var_rf", set_var_rf) ].

(** ** Predicates on lines, names and rows *)

(** [c in s] *)
Fixpoint has_char (c : ascii) (s : string) : bool :=
  match s with
  | EmptyString => false
  | String c' s' => Ascii.eqb c' c || has_char c s'
  end.

(** A string of white space only. *)
Fixpoint blank (s : string) : bool :=
  match s with
  | EmptyString => true
  | String c s' => isspace c && blank s'
  end.

(** A line the first loop takes for a component: a data line of 8
    tokens. *)
Definition taken_line (line : string) : bool :=
  is_data_line line && (token_count line =? 8)%nat.

(** Whether [int] or [float] accepted a token. *)
Definition parsed {A : Type} (o : option A) : bool :=
  match o with
  | Some _ => true
  | None => false
  end.

(** The entries the second loop of the loader makes of one component. *)
Definition entries_of_row (c : comp_pars) : lmfit_Parameters :=
  let ion := replace "*" "x" (cp_ion c) in
  [ (fmt_name "z" (cp_num c) ion, mkParameter (cp_z c) (Some (cp_z_err c)));
    (fmt_name "b" (cp_num c) ion, mkParameter (cp_b c) (Some (cp_b_err c)));
    (fmt_name "logN" (cp_num c) ion,
     mkParameter (cp_logN c) (Some (cp_logN_err c)));
    (fmt_name "rf" (cp_num c) ion,
     mkParameter (cp_rf c) (Some (cp_rf_err c))) ].

(** What the names of a component depend on: its index and its ion label
    after the substitution. *)
Definition row_key (c : comp_pars) : Z * string :=
  (cp_num c, replace "*" "x" (cp_ion c)).

(** [min(len(z), len(b), len(logN), len(rf))] *)
Definition shortest (z b logN rf : list Q) : nat :=
  Nat.min (Nat.min (length z) (length b))
          (Nat.min (length logN) (length rf)).

(** ** The name check of [Parameters.add]

    [pars.add(name, ...)] ends in [Parameters.__setitem__], which raises
    [KeyError] when [name] is not in the set yet and is not a valid symbol
    name. What the library counts as a valid symbol name is a parameter
    of this section. *)

Section NameCheck.

Variable valid_symbol_name : string -> bool.

(** [name in pars] *)
Definition Parameters_contains (name : string) (pars : lmfit_Parameters)
    : bool :=
  existsb (String.eqb name) (names pars).

(** [pars.add(name, value=v)] *)
Definition Parameters_add_checked (name : string) (v : Q)
    (pars : lmfit_Parameters) : result lmfit_Parameters :=
  if negb (Parameters_contains name pars) && negb (valid_symbol_name name)
  then Raise KeyError
  else Ok (Parameters_add name v pars).

(** The body of the loop of [components_from_array], with the check. *)
Definition add_vals_checked (ion : string) (pars : lmfit_Parameters)
    (item : nat * (Q * Q * Q * Q)) : result lmfit_Parameters :=
  let '(num, (v0, v1, v2, v3)) := item in
  let z_name := fmt_name "z" (Z.of_nat num) ion in
  let b_name := fmt_name "b" (Z.of_nat num) ion in
  let N_name := fmt_name "logN" (Z.of_nat num) ion in
  let rf_name := fmt_name "rf" (Z.of_nat num) ion in
  let* pars := Parameters_add_checked z_name v0 pars in
  let* pars := Parameters_add_checked b_name v1 pars in
  let* pars := Parameters_add_checked N_name v2 pars in
  let* pars := Parameters_add_checked rf_name v3 pars in
  Ok pars.

Fixpoint add_all_vals (ion : string) (items : list (nat * (Q * Q * Q * Q)))
    (pars : lmfit_Parameters) : result lmfit_Parameters :=
  match items with
  | [] => Ok pars
  | item :: rest =>
      let* pars' := add_vals_checked ion pars item in
      add_all_vals ion rest pars'
  end.

(** [components_from_array], with the check. *)
Definition components_from_array_checked (ion : string)
    (z b logN rf : list Q) : result lmfit_Parameters :=
  add_all_vals ion (enumerate (zip4 z b logN rf)) [].

(** The body of the second loop of the loader, with the check. *)
Definition add_component_checked (pars : lmfit_Parameters) (c : comp_pars)
    : result lmfit_Parameters :=
  let ion := replace "*" "x" (cp_ion c) in
  let z_name := fmt_name "z" (cp_num c) ion in
  let b_name := fmt_name "b" (cp_num c) ion in
  let N_name := fmt_name "logN" (cp_num c) ion in
  let rf_name := fmt_name "rf" (cp_num c) ion in
  let* pars := Parameters_add_checked z_name (cp_z c) pars in
  let* pars := Parameters_add_checked b_name (cp_b c) pars in
  let* pars := Parameters_add_checked N_name (cp_logN c) pars in
  let* pars := Parameters_add_checked rf_name (cp_rf c) pars in
  let* pars := Parameters_set_stderr z_name (cp_z_err c) pars in
  let* pars := Parameters_set_stderr b_name (cp_b_err c) pars in
  let* pars := Parameters_set_stderr N_name (cp_logN_err c) pars in
  let* pars := Parameters_set_stderr rf_name (cp_rf_err c) pars in
  Ok pars.

Fixpoint add_components_checked (components_to_add : list comp_pars)
    (pars : lmfit_Parameters) : result lmfit_Parameters :=
  match components_to_add with
  | [] => Ok pars
  | c :: rest =>
      let* pars' := add_component_checked pars c in
      add_components_checked rest pars'
  end.

End NameCheck.

(** The names [components_from_array] makes for the components of index
    below [n]: four for each index, in the order of the loop. *)
Definition generated_names (ion : string) (n : nat) : list string :=
  flat_map (fun num => map (fun field => fmt_name field (Z.of_nat num) ion)
                           fields)
           (seq 0 n).

(** The names the second loop of the loader makes for its components. *)
Definition row_names (components_to_add : list comp_pars) : list string :=
  flat_map (fun c => map (fun field => fmt_name field (cp_num c)
                                         (replace "*" "x" (cp_ion c)))
                         fields)
           components_to_add.

(** A name check for the examples: the names of ASCII letters, digits
    and underscores that do not begin with a digit. These are the Python
    identifiers over ASCII; a name of this file that is one is a valid
    symbol name, since it holds a digit and no reserved word does. *)
Definition identifier_start (c : ascii) : bool :=
  let n := N_of_ascii c in
  ((65 <=? n) && (n <=? 90) || (97 <=? n) && (n <=? 122) || (n =? 95))%N.

Definition identifier_char (c : ascii) : bool :=
  let n := N_of_ascii c in
  identifier_start c || ((48 <=? n) && (n <=? 57))%N.

Fixpoint identifier_chars (s : string) : bool :=
  match s with
  | EmptyString => true
  | String c s' => identifier_char c && identifier_chars s'
  end.

Definition identifier (name : string) : bool :=
  match name with
  | EmptyString => false
  | String c rest => identifier_start c && identifier_chars rest
  end.

(** ** The setters on every float

    The Component above holds rationals. Its setters only compare and take
    absolute values, so they can be followed exactly on every Python
    float: the finite ones, the two infinities, and NaN, with which
    every comparison is false. *)

Module Floats.

Inductive num : Type :=
| Fin (q : Q)
| PosInf
| NegInf
| NaN.

(** [x < y] *)
Definition lt (x y : num) : bool :=
  match x, y with
  | NaN, _ => false
  | _, NaN => false
  | Fin p, Fin q => py_lt p q
  | Fin _, PosInf => true
  | Fin _, NegInf => false
  | PosInf, _ => false
  | NegInf, NegInf => false
  | NegInf, _ => true
  end.

(** [x > y] *)
Definition gt (x y : num) : bool := lt y x.

(** [x <= y] *)
Definition le (x y : num) : bool :=
  match x, y with
  | NaN, _ => false
  | _, NaN => false
  | _, _ => negb (lt y x)
  end.

(** [abs(x)] *)
Definition abs (x : num) : num :=
  match x with
  | Fin q => Fin (Qabs q)
  | PosInf => PosInf
  | NegInf => PosInf
  | NaN => NaN
  end.

Record Component : Type := mkComponent {
  _z : num;
  _b : num;
  _logN : num;
  _rf : num;
  options : gmap string option_value
}.

Definition set_z (self : Component) (val : num) : Component * list string :=
  (mkComponent val (_b self) (_logN self) (_rf self) (options self), []).

Definition set_b (self : Component) (val : num) : Component * list string :=
  if lt val (Fin 0) then
    (mkComponent (_z self) (abs val) (_logN self) (_rf self) (options self),
     [warning_b])
  else
    (mkComponent (_z self) val (_logN self) (_rf self) (options self), []).

Definition set_logN (self : Component) (val : num)
    : Component * list string :=
  (mkComponent (_z self) (_b self) val (_rf self) (options self), []).

Definition set_rf (self : Component) (val : num) : Component * list string :=
  if lt val (Fin 0) || gt val (Fin 1) then
    if gt val (Fin 1) then
      (mkComponent (_z self) (_b self) (_logN self) (Fin 1) (options self),
       [warning_rf])
    else if lt val (Fin 0) then
      (mkComponent (_z self) (_b self) (_logN self) (Fin 0) (options self),
       [warning_rf])
    else (self, [warning_rf])
  else
    (mkComponent (_z self) (_b self) (_logN self) val (options self), []).

Definition set_option (self : Component) (key : string)
    (value : option_value) : Component :=
  mkComponent (_z self) (_b self) (_logN self) (_rf self)
              (<[key := value]> (options self)).

Inductive mutation : Type :=
| SetZ (val : num)
| SetB (val : num)
| SetLogN (val : num)
| SetRf (val : num)
| SetOption (key : string) (value : option_value).

Definition mutate (self : Component) (m : mutation) : Component :=
  match m with
  | SetZ val => fst (set_z self val)
  | SetB val => fst (set_b self val)
  | SetLogN val => fst (set_logN self val)
  | SetRf val => fst (set_rf self val)
  | SetOption key value => set_option self key value
  end.

Definition mutate_all (self : Component) (ms : list mutation) : Component :=
  fold_left mutate ms self.

(** [b >= 0 and 0 <= rf <= 1] is [True]. *)
Definition physical (self : Component) : Prop :=
  le (Fin 0) (_b self) = true /\
  le (Fin 0) (_rf self) = true /\ le (_rf self) (Fin 1) = true.

(** A write that assigns NaN to [b] or to [rf]. *)
Definition assigns_nan (m : mutation) : bool :=
  match m with
  | SetB NaN => true
  | SetRf NaN => true
  | _ => false
  end.

End Floats.

(** A Component of rationals as a Component of floats. *)
Definition to_floats (self : Component) : Floats.Component :=
  Floats.mkComponent (Floats.Fin (_z self)) (Floats.Fin (_b self))
    (Floats.Fin (_logN self)) (Floats.Fin (_rf self)) (options self).

(** * Properties of the Component class *)

Lemma py_lt_true (x y : Q) : py_lt x y = true <-> (x < y)%Q.
Proof.
  unfold py_lt. rewrite negb_true_iff, <- not_true_iff_false, Qle_bool_iff.
  split; [apply Qnot_le_lt | apply Qlt_not_le].
Qed.

Lemma py_lt_false (x y : Q) : py_lt x y = false <-> (y <= x)%Q.
Proof.
  unfold py_lt. rewrite negb_false_iff. apply Qle_bool_iff.
Qed.

(** C6. Assigning a negative [b0] to [b] stores [abs(b0)] and prints the
    warning; assigning a [b0 >= 0] stores [b0] itself and prints nothing. *)
Theorem set_b_stores_abs (self : Component) (b0 : Q) :
  ((b0 < 0)%Q ->
     Component_b (fst (set_b self b0)) = Qabs b0 /\
     snd (set_b self b0) = [warning_b]) /\
  ((0 <= b0)%Q ->
     Component_b (fst (set_b self b0)) = b0 /\
     snd (set_b self b0) = []).
Proof.
  unfold set_b. split; intros H.
  - apply py_lt_true in H. rewrite H. split; reflexivity.
  - apply py_lt_false in H. rewrite H. split; reflexivity.
Qed.

Lemma set_b_stores_abs_witness :
  (-3 < 0)%Q /\
  Component_b (fst (set_b (Component_new 0 1 13 1) (-3))) = Qabs (-3) /\
  snd (set_b (Component_new 0 1 13 1) (-3)) = [warning_b].
Proof.
  split; [reflexivity |].
  apply (proj1 (set_b_stores_abs (Component_new 0 1 13 1) (-3))).
  reflexivity.
Defined.

(** C7. Assigning [rf0 > 1] to [rf] stores 1, assigning [rf0 < 0] stores
    0, and assigning an [rf0] of [[0,1]] stores [rf0] itself. *)
Theorem set_rf_clamps (self : Component) (rf0 : Q) :
  ((1 < rf0)%Q -> Component_rf (fst (set_rf self rf0)) = 1%Q) /\
  ((rf0 < 0)%Q -> Component_rf (fst (set_rf self rf0)) = 0%Q) /\
  ((0 <= rf0)%Q -> (rf0 <= 1)%Q ->
     Component_rf (fst (set_rf self rf0)) = rf0).
Proof.
  unfold set_rf, py_gt. repeat split.
  - intros H. apply py_lt_true in H. rewrite H, orb_true_r. reflexivity.
  - intros H.
    assert (Hle : (rf0 <= 1)%Q).
    { apply Qlt_le_weak, Qlt_trans with 0%Q; [exact H | reflexivity]. }
    apply py_lt_true in H. apply py_lt_false in Hle.
    rewrite H, Hle. reflexivity.
  - intros H0 H1. apply py_lt_false in H0, H1. rewrite H0, H1. reflexivity.
Qed.

Lemma set_rf_clamps_witness :
  (1 < 1.5)%Q /\ Component_rf (fst (set_rf (Component_new 0 1 13 1) 1.5)) = 1%Q.
Proof.
  split; [reflexivity |].
  apply (proj1 (set_rf_clamps (Component_new 0 1 13 1) 1.5)).
  reflexivity.
Defined.

(** On rationals, the setters of [b] and [rf] establish the invariant of
    their field; the lemmas on [Floats], further down, say what happens
    with NaN. *)
Lemma set_b_nonneg (self : Component) (val : Q) :
  (0 <= Component_b (fst (set_b self val)))%Q.
Proof.
  unfold set_b. destruct (py_lt val 0) eqn:E; simpl.
  - apply Qabs_nonneg.
  - now apply py_lt_false.
Qed.

Lemma set_rf_in_range (self : Component) (val : Q) :
  (0 <= Component_rf self)%Q /\ (Component_rf self <= 1)%Q ->
  (0 <= Component_rf (fst (set_rf self val)))%Q /\
  (Component_rf (fst (set_rf self val)) <= 1)%Q.
Proof.
  intros Hself. unfold set_rf, py_gt.
  destruct (py_lt val 0) eqn:E0, (py_lt 1 val) eqn:E1; simpl;
    try (split; discriminate).
  split; now apply py_lt_false.
Qed.

(** Every write through the interface keeps the invariant. *)
Lemma mutate_physical (self : Component) (m : mutation) :
  physical self -> physical (mutate self m).
Proof.
  intros (Hb & Hrf). destruct m; simpl; try (split; assumption).
  - split; [apply set_b_nonneg |].
    unfold set_b. destruct (py_lt val 0); exact Hrf.
  - split; [| now apply set_rf_in_range].
    unfold set_rf, py_gt.
    destruct (py_lt val 0), (py_lt 1 val); exact Hb.
Qed.

Lemma mutate_all_physical (ms : list mutation) (self : Component) :
  physical self -> physical (mutate_all self ms).
Proof.
  unfold mutate_all. revert self.
  induction ms as [| m ms IH]; intros self H; simpl; [exact H |].
  apply IH, mutate_physical, H.
Qed.

(** A write that is not to [b] leaves [b] as it is. *)
Lemma mutate_keeps_b (self : Component) (m : mutation) :
  (forall val, m <> SetB val) ->
  Component_b (mutate self m) = Component_b self.
Proof.
  intros Hm. destruct m; simpl; try reflexivity.
  - now destruct (Hm val).
  - unfold set_rf, py_gt.
    destruct (py_lt val 0), (py_lt 1 val); reflexivity.
Qed.

(** C2. The constructor stores [b] and [rf] as they are given, without the
    checks of the setters: constructed with [b = -5] and [rf = 2], a
    Component holds a negative [b] and an [rf] above 1, and keeps them
    through the writes to its other attributes. *)
Theorem init_stores_b_and_rf_unchecked :
  (forall z b logN rf vz vb vN vrf tz tb tN trf,
     let self := Component_init z b logN rf vz vb vN vrf tz tb tN trf in
     Component_b self = b /\ Component_rf self = rf) /\
  (Component_b (Component_new 0 (-5) 13 2) < 0)%Q /\
  (1 < Component_rf (Component_new 0 (-5) 13 2))%Q /\
  ~ physical (Component_new 0 (-5) 13 2) /\
  ~ physical (mutate_all (Component_new 0 (-5) 13 2)
                [SetZ 1; SetLogN 14; SetOption "var_b" (PyBool false)]).
Proof.
  split; [intros; split; reflexivity |].
  split; [reflexivity |]. split; [reflexivity |].
  split; intros (Hb & _); now apply Hb.
Qed.

(** C9. [set_option(key, v)] followed by [get_option(key)] returns [v];
    the options under the other keys, and the four physical parameters,
    are as before. *)
Theorem set_option_get_option (self : Component) (key : string)
    (v : option_value) :
  In key option_keys ->
  get_option (set_option self key v) key = Ok v /\
  (forall key', key' <> key ->
     get_option (set_option self key v) key' = get_option self key') /\
  get_pars (set_option self key v) = get_pars self.
Proof.
  intros _. unfold get_option, set_option; simpl. repeat split.
  - now rewrite lookup_insert_eq.
  - intros key' Hne. rewrite lookup_insert_ne; [reflexivity | congruence].
Qed.

Lemma set_option_get_option_witness :
  In "tie_z" option_keys /\
  get_option (set_option (Component_new 0 1 13 1) "tie_z" (PyStr "z0_FeII"))
             "tie_z" = Ok (PyStr "z0_FeII").
Proof.
  split; [vm_compute; tauto |].
  apply (set_option_get_option (Component_new 0 1 13 1) "tie_z").
  vm_compute; tauto.
Defined.

(** A new Component holds the eight option keys and no other. *)
Lemma init_options_unknown_key z b logN rf vz vb vN vrf tz tb tN trf
    (key : string) :
  ~ In key option_keys ->
  options (Component_init z b logN rf vz vb vN vrf tz tb tN trf) !! key = None.
Proof.
  intros Hkey. unfold Component_init; simpl.
  repeat (rewrite lookup_insert_ne;
          [| intros <-; apply Hkey; simpl; tauto]).
  apply lookup_empty.
Qed.

(** A key that is not an option name is inserted by [set_option], and
    [get_option] then returns what was stored under it. *)
Lemma get_option_inserted_key_counterexample :
  ~ In "note" option_keys /\
  get_option (set_option (Component_new 0 1 13 1) "note" (PyBool true)) "note"
    = Ok (PyBool true) /\
  get_option (set_option (Component_new 0 1 13 1) "note" (PyBool true)) "note"
    <> Raise KeyError.
Proof.
  split; [| split].
  - simpl. intros H. repeat (destruct H as [H | H]; [discriminate H |]).
    exact H.
  - unfold get_option, set_option; simpl. now rewrite lookup_insert_eq.
  - unfold get_option, set_option; simpl. now rewrite lookup_insert_eq.
Qed.

(** C10, amended. For a key that is not one of the eight option names:
    [get_option(key)] raises [KeyError] on a Component whose options do
    not hold the key, as on every new Component; [set_option(key, value)]
    inserts the key, and [get_option(key)] returns the value from then
    on. *)
Theorem unknown_option_key (self : Component) (key : string)
    (v : option_value) :
  ~ In key option_keys ->
  (options self !! key = None -> get_option self key = Raise KeyError) /\
  (forall z b logN rf vz vb vN vrf tz tb tN trf,
     get_option (Component_init z b logN rf vz vb vN vrf tz tb tN trf) key
       = Raise KeyError) /\
  options (set_option self key v) !! key = Some v /\
  get_option (set_option self key v) key = Ok v.
Proof.
  intros Hkey. repeat split.
  - intros Hnone. unfold get_option. now rewrite Hnone.
  - intros. unfold get_option.
    now rewrite (init_options_unknown_key _ _ _ _ _ _ _ _ _ _ _ _ _ Hkey).
  - simpl. apply lookup_insert_eq.
  - unfold get_option; simpl. now rewrite lookup_insert_eq.
Qed.

Lemma unknown_option_key_witness :
  ~ In "note" option_keys /\
  get_option (Component_new 0 1 13 1) "note" = Raise KeyError /\
  get_option (set_option (Component_new 0 1 13 1) "note" PyNone) "note"
    = Ok PyNone.
Proof.
  assert (Hkey : ~ In "note" option_keys).
  { simpl. intros H. repeat (destruct H as [H | H]; [discriminate H |]).
    exact H. }
  split; [exact Hkey |].
  destruct (unknown_option_key (Component_new 0 1 13 1) "note" PyNone Hkey)
    as (_ & Hnew & _ & Hget).
  split; [apply Hnew | exact Hget].
Defined.

(** * Properties of the file loader *)

Section LoaderFacts.

Variable py_int : string -> option Z.
Variable py_float : string -> option Q.

(** Blank lines and comment lines are skipped. *)
Lemma read_line_not_data (acc : list comp_pars) (line : string) :
  is_data_line line = false -> read_line py_int py_float acc line = Ok acc.
Proof.
  unfold is_data_line, read_line.
  destruct (strip line) as [| c rest]; [reflexivity |].
  destruct (Ascii.eqb c "#"); [reflexivity | discriminate].
Qed.

(** A line whose token count is not 8 is skipped. *)
Lemma read_line_other_count (acc : list comp_pars) (line : string) :
  token_count line <> 8%nat -> read_line py_int py_float acc line = Ok acc.
Proof.
  unfold token_count, read_line. intros Hcount.
  destruct (strip line) as [| c rest]; [reflexivity |].
  destruct (Ascii.eqb c "#"); [reflexivity |].
  destruct (Nat.eqb_spec (length (split (String c rest))) 8);
    [contradiction | reflexivity].
Qed.

(** A data line of 8 tokens raises: [ValueError] from a token that
    does not parse, and [IndexError] from [pars[8]] otherwise. *)
Lemma read_line_eight_tokens (acc : list comp_pars) (line : string) :
  is_data_line line = true -> token_count line = 8%nat ->
  read_line py_int py_float acc line = Raise ValueError \/
  read_line py_int py_float acc line = Raise IndexError.
Proof.
  unfold is_data_line, token_count, read_line. intros Hdata Hcount.
  destruct (strip line) as [| c rest]; [discriminate |].
  destruct (Ascii.eqb c "#"); [discriminate |].
  rewrite Hcount; simpl.
  destruct (split (String c rest))
    as [| t0 [| t1 [| t2 [| t3 [| t4 [| t5 [| t6 [| t7 [| t8 ts]]]]]]]]];
    try discriminate Hcount.
  unfold getitem, int, float; simpl.
  destruct (py_int t0); simpl; [| now left].
  destruct (py_float t2); simpl; [| now left].
  destruct (py_float t3); simpl; [| now left].
  destruct (py_float t4); simpl; [| now left].
  destruct (py_float t5); simpl; [| now left].
  destruct (py_float t6); simpl; [| now left].
  destruct (py_float t7); simpl; [| now left].
  now right.
Qed.

(** No line adds a component: the branch that appends is the one for
    8 tokens, and it raises before it gets there. *)
Lemma read_line_adds_nothing (acc acc' : list comp_pars) (line : string) :
  read_line py_int py_float acc line = Ok acc' -> acc' = acc.
Proof.
  intros Hok.
  destruct (is_data_line line) eqn:Hdata.
  - destruct (Nat.eq_dec (token_count line) 8) as [Hcount | Hcount].
    + destruct (read_line_eight_tokens acc line Hdata Hcount) as [H | H];
        rewrite H in Hok; discriminate.
    + rewrite (read_line_other_count acc line Hcount) in Hok. congruence.
  - rewrite (read_line_not_data acc line Hdata) in Hok. congruence.
Qed.

Lemma read_lines_adds_nothing (lines : list string)
    (acc acc' : list comp_pars) :
  read_lines py_int py_float lines acc = Ok acc' -> acc' = acc.
Proof.
  revert acc. induction lines as [| line rest IH]; intros acc; simpl.
  - congruence.
  - destruct (read_line py_int py_float acc line) as [acc1 |] eqn:Hline; simpl;
      [| discriminate].
    intros Hrest. apply read_line_adds_nothing in Hline. subst acc1.
    now apply IH.
Qed.

(** Lines without 8 tokens are all skipped. *)
Lemma read_lines_other_counts (lines : list string) (acc : list comp_pars) :
  Forall (fun line => token_count line <> 8%nat) lines ->
  read_lines py_int py_float lines acc = Ok acc.
Proof.
  induction 1 as [| line rest Hline _ IH]; simpl; [reflexivity |].
  now rewrite (read_line_other_count acc line Hline).
Qed.

(** Whatever the file holds, the loader returns no entry. *)
Lemma load_returns_no_entry (fs : gmap string string) (fname : string)
    (pars : lmfit_Parameters) :
  load_components_from_file py_int py_float fs fname = Ok pars -> pars = [].
Proof.
  unfold load_components_from_file.
  destruct (fs !! fname) as [text |]; [| discriminate].
  destruct (read_lines py_int py_float (readlines text) [])
    as [rows |] eqn:Hrows; simpl; [| discriminate].
  apply read_lines_adds_nothing in Hrows. subst rows. simpl. congruence.
Qed.

(** A path that cannot be opened raises [OSError]. *)
Lemma load_missing_file (fs : gmap string string) (fname : string) :
  fs !! fname = None ->
  load_components_from_file py_int py_float fs fname = Raise OSError.
Proof.
  intros Hnone. unfold load_components_from_file. now rewrite Hnone.
Qed.

(** A file with a data line of 8 tokens cannot be loaded. *)
Lemma load_eight_tokens_raises (fs : gmap string string) (fname : string)
    (text : string) (line : string) :
  fs !! fname = Some text -> In line (readlines text) ->
  is_data_line line = true -> token_count line = 8%nat ->
  raises (load_components_from_file py_int py_float fs fname).
Proof.
  intros Hfile Hin Hdata Hcount.
  destruct (load_components_from_file py_int py_float fs fname)
    as [pars |] eqn:Hload; [| now eexists].
  exfalso. revert Hload. unfold load_components_from_file. rewrite Hfile.
  destruct (read_lines py_int py_float (readlines text) [])
    as [rows |] eqn:Hrows; [| discriminate].
  intros _. revert Hrows Hin. generalize (@nil comp_pars).
  induction (readlines text) as [| l rest IH]; intros acc Hrows Hin;
    [destruct Hin |].
  simpl in Hrows.
  destruct (read_line py_int py_float acc l) as [acc1 |] eqn:Hl;
    [| discriminate].
  destruct Hin as [-> | Hin].
  - destruct (read_line_eight_tokens acc line Hdata Hcount) as [H | H];
      rewrite H in Hl; discriminate.
  - exact (IH acc1 Hrows Hin).
Qed.

End LoaderFacts.

(** What the second loop makes of a component once it has one. *)
Example add_components_FeII :
  add_components
    [mkCompPars 0 "FeII" 0.52341 12.3 14.52 0.85 0.00002 0.4 0.03 0.02] []
  = Ok [ ("z0_FeII", mkParameter 0.52341 (Some 0.00002%Q));
         ("b0_FeII", mkParameter 12.3 (Some 0.4%Q));
         ("logN0_FeII", mkParameter 14.52 (Some 0.03%Q));
         ("rf0_FeII", mkParameter 0.85 (Some 0.02%Q)) ].
Proof. reflexivity. Qed.

Example add_components_Al_star :
  add_components [mkCompPars 2 "Al*" 0.1 5 13 0.9 0.01 0.02 0.03 0.04] []
  = Ok [ ("z2_Alx", mkParameter 0.1 (Some 0.01%Q));
         ("b2_Alx", mkParameter 5 (Some 0.02%Q));
         ("logN2_Alx", mkParameter 13 (Some 0.03%Q));
         ("rf2_Alx", mkParameter 0.9 (Some 0.04%Q)) ].
Proof. reflexivity. Qed.

(** C1. The data line of the format, with its ten tokens, is not read:
    the first loop takes lines of 8 tokens only, so the loader returns an
    empty parameter set for the file and none of [z0_FeII], [b0_FeII],
    [logN0_FeII], [rf0_FeII] is in it. *)
Theorem well_formed_line_yields_no_entry
    (py_int : string -> option Z) (py_float : string -> option Q) :
  is_data_line FeII_line = true /\
  token_count FeII_line = 10%nat /\
  load_components_from_file py_int py_float (fit_file FeII_line) "dataset.fit"
    = Ok [] /\
  (forall components_to_add line,
     token_count line = 10%nat ->
     read_line py_int py_float components_to_add line = Ok components_to_add).
Proof.
  split; [reflexivity |]. split; [reflexivity |].
  split; [vm_compute; reflexivity |].
  intros acc line Hcount. apply read_line_other_count. now rewrite Hcount.
Qed.

(** C3. A line of 6 tokens is skipped, but a data line of 8 tokens, which
    does not have the ten tokens of the format either, is not: the loader
    reads it up to [pars[8]] and raises. *)
Theorem eight_token_line_raises :
  is_data_line eight_token_line = true /\
  token_count eight_token_line = 8%nat /\
  load_components_from_file decimal_int decimal_float
    (fit_file eight_token_line) "dataset.fit" = Raise IndexError /\
  (forall py_int py_float,
     raises (load_components_from_file py_int py_float
               (fit_file eight_token_line) "dataset.fit")) /\
  (forall py_int py_float,
     load_components_from_file py_int py_float
       (fit_file six_token_line) "dataset.fit" = Ok []).
Proof.
  split; [reflexivity |]. split; [reflexivity |].
  split; [vm_compute; reflexivity |]. split.
  - intros py_int py_float.
    apply load_eight_tokens_raises
      with (text := fit_text eight_token_line)
           (line := eight_token_line ++ nl).
    + reflexivity.
    + vm_compute. tauto.
    + reflexivity.
    + reflexivity.
  - intros py_int py_float. vm_compute. reflexivity.
Qed.

(** C5. A data line of ten tokens whose [z] is not a number is skipped
    like every line of ten tokens: the loader returns without an error. *)
Theorem unparseable_field_not_reported
    (py_int : string -> option Z) (py_float : string -> option Q) :
  decimal_float "abc" = None /\
  token_count bad_number_line = 10%nat /\
  load_components_from_file py_int py_float
    (fit_file bad_number_line) "dataset.fit" = Ok [].
Proof. repeat split; vm_compute; reflexivity. Qed.

(** * Parameter names *)

Lemma append_nil_l (t : string) : "" ++ t = t.
Proof. reflexivity. Qed.

Lemma append_cons (c : ascii) (s t : string) :
  String c s ++ t = String c (s ++ t).
Proof. reflexivity. Qed.

Ltac unfold_append := rewrite ?append_cons, ?append_nil_l in *.

Lemma length_append (s t : string) :
  String.length (s ++ t) = (String.length s + String.length t)%nat.
Proof.
  induction s as [| c s IH]; unfold_append; simpl; [reflexivity |].
  now rewrite IH.
Qed.

Lemma append_inv_tail (s1 s2 t : string) : s1 ++ t = s2 ++ t -> s1 = s2.
Proof.
  revert s2. induction s1 as [| c1 s1 IH]; intros [| c2 s2] H;
    unfold_append.
  - reflexivity.
  - apply (f_equal String.length) in H. simpl in H.
    rewrite length_append in H. lia.
  - apply (f_equal String.length) in H. simpl in H.
    rewrite length_append in H. lia.
  - injection H as -> H. f_equal. now apply IH.
Qed.

(** ['%i'] is one-to-one. *)
Lemma fmt_i_inj (n m : Z) : fmt_i n = fmt_i m -> n = m.
Proof.
  unfold fmt_i. intros H.
  assert (Hback : forall k : Z,
    NilZero.int_of_string (NilZero.string_of_int (Z.to_int k))
    = Some (Z.to_int k)).
  { intros k. apply NilZero.isi; intro Hnil;
      pose proof (f_equal Z.of_int Hnil) as Hk; rewrite DecimalZ.of_to in Hk;
      subst k; discriminate Hnil. }
  apply (f_equal NilZero.int_of_string) in H. rewrite !Hback in H.
  injection H as H. now apply DecimalZ.to_int_inj.
Qed.

(** A name determines its field and its index. *)
Lemma fmt_name_inj (f1 f2 : string) (n1 n2 : Z) (ion : string) :
  In f1 fields -> In f2 fields ->
  fmt_name f1 n1 ion = fmt_name f2 n2 ion -> f1 = f2 /\ n1 = n2.
Proof.
  unfold fields, fmt_name. simpl.
  intros [<- | [<- | [<- | [<- | []]]]] [<- | [<- | [<- | [<- | []]]]] H;
    unfold_append; try discriminate H;
    (split; [reflexivity |]); repeat injection H as H;
    apply fmt_i_inj, (append_inv_tail _ _ ("_" ++ ion)), H.
Qed.

(** * Properties of the parameter set *)

(** Adding under a name that is not there yet appends the entry. *)
Lemma Parameters_add_fresh (name : string) (v : Q) (pars : lmfit_Parameters) :
  ~ In name (names pars) ->
  Parameters_add name v pars = (pars ++ [(name, mkParameter v None)])%list.
Proof.
  induction pars as [| [n p] rest IH]; simpl; intros Hfresh; [reflexivity |].
  destruct (String.eqb_spec n name) as [-> | Hne].
  - destruct Hfresh. now left.
  - f_equal. apply IH. intros Hin. apply Hfresh. now right.
Qed.

Lemma names_add (name : string) (v : Q) (pars : lmfit_Parameters) (x : string) :
  In x (names (Parameters_add name v pars)) -> x = name \/ In x (names pars).
Proof.
  induction pars as [| [n p] rest IH]; simpl.
  - intros [<- | []]. now left.
  - destruct (String.eqb_spec n name) as [-> | Hne]; simpl.
    + intros [<- | Hin]; [now left | right; now right].
    + intros [<- | Hin]; [right; now left |].
      destruct (IH Hin) as [-> | Hin']; [now left | right; now right].
Qed.

(** The names of a parameter set stay distinct. *)
Lemma Parameters_add_NoDup (name : string) (v : Q) (pars : lmfit_Parameters) :
  List.NoDup (names pars) -> List.NoDup (names (Parameters_add name v pars)).
Proof.
  induction pars as [| [n p] rest IH]; simpl; intros Hnd.
  - constructor; [intros [] | constructor].
  - inversion Hnd as [| ? ? Hnotin Hrest]; subst.
    destruct (String.eqb_spec n name) as [-> | Hne]; simpl.
    + now constructor.
    + constructor; [| now apply IH].
      intros Hin. apply names_add in Hin. destruct Hin as [-> | Hin];
        [now apply Hne | now apply Hnotin].
Qed.

(** With distinct names, the entry at a position is the one its name
    looks up. *)
Lemma Parameters_get_lookup (pars : lmfit_Parameters) (k : nat)
    (n : string) (p : lmfit_Parameter) :
  List.NoDup (names pars) -> pars !! k = Some (n, p) ->
  Parameters_get n pars = Ok p.
Proof.
  revert k. induction pars as [| [n0 p0] rest IH]; intros k Hnd Hk.
  - destruct k; discriminate Hk.
  - inversion Hnd as [| ? ? Hnotin Hrest]; subst. simpl.
    destruct k as [| k]; simpl in Hk.
    + injection Hk as -> ->. now rewrite String.eqb_refl.
    + destruct (String.eqb_spec n0 n) as [-> | Hne]; [| now apply (IH k)].
      destruct Hnotin. apply (in_map fst) with (x := (n, p)).
      apply list_elem_of_In, list_elem_of_lookup. now exists k.
Qed.

(** * Properties of the array builder *)

Lemma length_zip4 (z b logN rf : list Q) (N : nat) :
  length z = N -> length b = N -> length logN = N -> length rf = N ->
  length (zip4 z b logN rf) = N.
Proof.
  revert z b logN rf.
  induction N as [| N IH]; intros [| z0 z] [| b0 b] [| n0 logN] [| r0 rf];
    simpl; try discriminate; try reflexivity.
  intros Hz Hb Hn Hr. f_equal. apply IH; congruence.
Qed.

Lemma lookup_zip4 (z b logN rf : list Q) (i : nat) (zi bi ni ri : Q) :
  z !! i = Some zi -> b !! i = Some bi ->
  logN !! i = Some ni -> rf !! i = Some ri ->
  zip4 z b logN rf !! i = Some (zi, bi, ni, ri).
Proof.
  revert z b logN rf.
  induction i as [| i IH]; intros [| z0 z] [| b0 b] [| n0 logN] [| r0 rf];
    simpl; try discriminate.
  - congruence.
  - apply IH.
Qed.

Lemma lookup_enumerate_from {A : Type} (l : list A) (start i : nat) (x : A) :
  l !! i = Some x -> enumerate_from start l !! i = Some ((start + i)%nat, x).
Proof.
  revert start i. induction l as [| y l IH]; intros start [| i] H;
    try discriminate H; simpl in *.
  - injection H as ->. now rewrite Nat.add_0_r.
  - rewrite (IH (S start) i H). do 2 f_equal. lia.
Qed.

Lemma length_enumerate_from {A : Type} (l : list A) (start : nat) :
  length (enumerate_from start l) = length l.
Proof.
  revert start. induction l as [| y l IH]; intros start; simpl;
    [reflexivity | now rewrite IH].
Qed.

(** Four entries per component, in the order of the components. *)
Lemma length_entries (ion : string) (l : list (nat * (Q * Q * Q * Q))) :
  length (flat_map (entries_of ion) l) = (4 * length l)%nat.
Proof.
  induction l as [| [num [[[v0 v1] v2] v3]] l IH]; simpl; [reflexivity |].
  simpl in IH. rewrite IH. lia.
Qed.

Lemma lookup_entries (ion : string) (l : list (nat * (Q * Q * Q * Q)))
    (i j : nat) (item : nat * (Q * Q * Q * Q)) :
  l !! i = Some item -> (j < 4)%nat ->
  flat_map (entries_of ion) l !! (4 * i + j)%nat = entries_of ion item !! j.
Proof.
  revert i. induction l as [| [num [[[v0 v1] v2] v3]] l IH]; intros i Hi Hj.
  - destruct i; discriminate Hi.
  - destruct i as [| i]; simpl in Hi.
    + injection Hi as <-.
      destruct j as [| [| [| [| j]]]]; try reflexivity. lia.
    + replace (4 * S i + j)%nat with (4 + (4 * i + j))%nat by lia.
      simpl flat_map. exact (IH i Hi Hj).
Qed.

Lemma in_fields (f : string) :
  f = "z" \/ f = "b" \/ f = "logN" \/ f = "rf" -> In f fields.
Proof. unfold fields; simpl. intuition. Qed.

Lemma names_app (p1 p2 : lmfit_Parameters) (x : string) :
  In x (names (p1 ++ p2)%list) <-> In x (names p1) \/ In x (names p2).
Proof. unfold names. rewrite map_app. apply in_app_iff. Qed.

(** The names of one component are those of [entries_of]. *)
Lemma names_entries_of (ion : string) (num : nat) (vals : Q * Q * Q * Q)
    (x : string) :
  In x (names (entries_of ion (num, vals))) ->
  exists f, In f fields /\ x = fmt_name f (Z.of_nat num) ion.
Proof.
  destruct vals as [[[v0 v1] v2] v3]. simpl.
  intros [<- | [<- | [<- | [<- | []]]]];
    eexists; (split; [apply in_fields | reflexivity]); tauto.
Qed.

(** One round of the loop, on names that are all new, appends the four
    entries of the component. *)
Lemma add_vals_fresh (ion : string) (pars : lmfit_Parameters) (num : nat)
    (vals : Q * Q * Q * Q) :
  (forall f, In f fields ->
     ~ In (fmt_name f (Z.of_nat num) ion) (names pars)) ->
  add_vals ion pars (num, vals) = (pars ++ entries_of ion (num, vals))%list.
Proof.
  destruct vals as [[[v0 v1] v2] v3]. intros Hfresh.
  assert (Hdiff : forall f g, In f fields -> In g fields -> f <> g ->
            fmt_name f (Z.of_nat num) ion <> fmt_name g (Z.of_nat num) ion).
  { intros f g Hf Hg Hne Heq. apply Hne.
    now apply (fmt_name_inj f g _ _ ion Hf Hg Heq). }
  assert (Hz : In "z" fields) by (apply in_fields; tauto).
  assert (Hb : In "b" fields) by (apply in_fields; tauto).
  assert (HN : In "logN" fields) by (apply in_fields; tauto).
  assert (Hrf : In "rf" fields) by (apply in_fields; tauto).
  unfold add_vals, entries_of.
  rewrite (Parameters_add_fresh (fmt_name "z" _ _)) by now apply Hfresh.
  rewrite (Parameters_add_fresh (fmt_name "b" _ _)).
  2:{ rewrite names_app. simpl. intros [H | [H | []]].
      - now apply (Hfresh "b").
      - now apply (Hdiff "z" "b"). }
  rewrite (Parameters_add_fresh (fmt_name "logN" _ _)).
  2:{ rewrite !names_app. simpl. intros [[H | [H | []]] | [H | []]].
      - now apply (Hfresh "logN").
      - now apply (Hdiff "z" "logN").
      - now apply (Hdiff "b" "logN"). }
  rewrite (Parameters_add_fresh (fmt_name "rf" _ _)).
  2:{ rewrite !names_app. simpl.
      intros [[[H | [H | []]] | [H | []]] | [H | []]].
      - now apply (Hfresh "rf").
      - now apply (Hdiff "z" "rf").
      - now apply (Hdiff "b" "rf").
      - now apply (Hdiff "logN" "rf"). }
  now rewrite <- !app_assoc.
Qed.

(** The loop over the components from index [start] on, when the names
    already in [pars] carry indices below [start]. *)
Lemma fold_add_vals (ion : string) (l : list (Q * Q * Q * Q)) :
  forall (start : nat) (pars : lmfit_Parameters),
    (forall x, In x (names pars) ->
       exists f k, In f fields /\ (k < start)%nat /\
                   x = fmt_name f (Z.of_nat k) ion) ->
    fold_left (add_vals ion) (enumerate_from start l) pars
    = (pars ++ flat_map (entries_of ion) (enumerate_from start l))%list.
Proof.
  induction l as [| vals l IH]; intros start pars Hbelow;
    cbn [fold_left enumerate_from flat_map].
  - now rewrite app_nil_r.
  - rewrite add_vals_fresh.
    + rewrite IH; [now rewrite <- app_assoc |].
      intros x Hx. apply names_app in Hx. destruct Hx as [Hx | Hx].
      * destruct (Hbelow x Hx) as (f & k & Hf & Hk & ->).
        exists f, k. repeat split; [assumption | lia].
      * apply names_entries_of in Hx. destruct Hx as (f & Hf & ->).
        exists f, start. repeat split; [assumption | lia].
    + intros f Hf Hin.
      destruct (Hbelow _ Hin) as (g & k & Hg & Hk & Heq).
      apply fmt_name_inj in Heq; [| assumption | assumption].
      destruct Heq as [_ Heq]. lia.
Qed.

(** The parameter set of the builder, entry by entry. *)
Lemma components_from_array_eq (ion : string) (z b logN rf : list Q) :
  components_from_array ion z b logN rf
  = flat_map (entries_of ion) (enumerate (zip4 z b logN rf)).
Proof.
  unfold components_from_array, enumerate.
  rewrite fold_add_vals; [reflexivity |]. intros x [].
Qed.

Lemma fold_add_vals_NoDup (ion : string)
    (l : list (nat * (Q * Q * Q * Q))) (pars : lmfit_Parameters) :
  List.NoDup (names pars) ->
  List.NoDup (names (fold_left (add_vals ion) l pars)).
Proof.
  revert pars. induction l as [| [num [[[v0 v1] v2] v3]] l IH];
    intros pars Hnd; simpl; [exact Hnd |].
  apply IH. now repeat apply Parameters_add_NoDup.
Qed.

(** The names and values the builder hands to the library for four
    sequences of length [N]: [4 * N] entries under distinct names,
    component [i] giving [z<i>_<ion>], [b<i>_<ion>], [logN<i>_<ion>] and
    [rf<i>_<ion>] with the [i]-th value of each sequence. *)
Lemma components_from_array_positions (ion : string) (z b logN rf : list Q)
    (N : nat) :
  length z = N -> length b = N -> length logN = N -> length rf = N ->
  length (components_from_array ion z b logN rf) = (4 * N)%nat /\
  List.NoDup (names (components_from_array ion z b logN rf)) /\
  (forall i zi bi ni ri,
     z !! i = Some zi -> b !! i = Some bi ->
     logN !! i = Some ni -> rf !! i = Some ri ->
     let pars := components_from_array ion z b logN rf in
     let num := Z.of_nat i in
     pars !! (4 * i)%nat
       = Some (fmt_name "z" num ion, mkParameter zi None) /\
     pars !! (4 * i + 1)%nat
       = Some (fmt_name "b" num ion, mkParameter bi None) /\
     pars !! (4 * i + 2)%nat
       = Some (fmt_name "logN" num ion, mkParameter ni None) /\
     pars !! (4 * i + 3)%nat
       = Some (fmt_name "rf" num ion, mkParameter ri None) /\
     Parameters_get (fmt_name "z" num ion) pars = Ok (mkParameter zi None) /\
     Parameters_get (fmt_name "b" num ion) pars = Ok (mkParameter bi None) /\
     Parameters_get (fmt_name "logN" num ion) pars = Ok (mkParameter ni None) /\
     Parameters_get (fmt_name "rf" num ion) pars = Ok (mkParameter ri None)) /\
  MgII_pars
  = [ ("z0_MgII", mkParameter 0.1 None); ("b0_MgII", mkParameter 5 None);
      ("logN0_MgII", mkParameter 13 None); ("rf0_MgII", mkParameter 0.9 None);
      ("z1_MgII", mkParameter 0.2 None); ("b1_MgII", mkParameter 10 None);
      ("logN1_MgII", mkParameter 14 None); ("rf1_MgII", mkParameter 1.0 None) ].
Proof.
  intros Hz Hb Hn Hr.
  assert (Hnd : List.NoDup (names (components_from_array ion z b logN rf))).
  { apply fold_add_vals_NoDup. constructor. }
  split; [| split; [exact Hnd | split; [| reflexivity]]].
  - rewrite components_from_array_eq, length_entries.
    unfold enumerate. rewrite length_enumerate_from.
    now rewrite (length_zip4 z b logN rf N).
  - intros i zi bi ni ri Hzi Hbi Hni Hri pars num.
    assert (Hitem : enumerate (zip4 z b logN rf) !! i
                    = Some (i, (zi, bi, ni, ri))).
    { unfold enumerate.
      apply (lookup_enumerate_from _ 0), lookup_zip4; assumption. }
    assert (H0 : pars !! (4 * i)%nat
                 = Some (fmt_name "z" num ion, mkParameter zi None)).
    { subst pars. rewrite components_from_array_eq. unfold lmfit_Parameters.
      replace (4 * i)%nat with (4 * i + 0)%nat by lia.
      rewrite (lookup_entries ion _ i 0 _ Hitem) by lia. reflexivity. }
    assert (H1 : pars !! (4 * i + 1)%nat
                 = Some (fmt_name "b" num ion, mkParameter bi None)).
    { subst pars. rewrite components_from_array_eq. unfold lmfit_Parameters.
      rewrite (lookup_entries ion _ i 1 _ Hitem) by lia. reflexivity. }
    assert (H2 : pars !! (4 * i + 2)%nat
                 = Some (fmt_name "logN" num ion, mkParameter ni None)).
    { subst pars. rewrite components_from_array_eq. unfold lmfit_Parameters.
      rewrite (lookup_entries ion _ i 2 _ Hitem) by lia. reflexivity. }
    assert (H3 : pars !! (4 * i + 3)%nat
                 = Some (fmt_name "rf" num ion, mkParameter ri None)).
    { subst pars. rewrite components_from_array_eq. unfold lmfit_Parameters.
      rewrite (lookup_entries ion _ i 3 _ Hitem) by lia. reflexivity. }
    repeat split; try assumption;
      eapply Parameters_get_lookup; eassumption.
Qed.

(** C4. The loader substitutes [x] for [*] in the ion label, the builder
    does not: for the ion [Al*] it makes the names [z2_Al*], [b2_Al*],
    [logN2_Al*] and [rf2_Al*] for the component of index 2, and none of
    the names with [Alx]. The loader reaches its substitution for no
    line, a line of ten tokens being skipped. *)
Theorem components_from_array_keeps_star :
  names Al_star_pars
  = [ "z0_Al*"; "b0_Al*"; "logN0_Al*"; "rf0_Al*";
      "z1_Al*"; "b1_Al*"; "logN1_Al*"; "rf1_Al*";
      "z2_Al*"; "b2_Al*"; "logN2_Al*"; "rf2_Al*" ] /\
  (forall x, In x ["z2_Alx"; "b2_Alx"; "logN2_Alx"; "rf2_Alx"] ->
     ~ In x (names Al_star_pars)) /\
  (forall ion z b logN rf i item,
     enumerate (zip4 z b logN rf) !! i = Some item ->
     names (components_from_array ion z b logN rf) !! (4 * i)%nat
     = Some (fmt_name "z" (Z.of_nat (fst item)) ion)) /\
  (forall py_int py_float,
     load_components_from_file py_int py_float
       (fit_file Al_star_line) "dataset.fit" = Ok []).
Proof.
  split; [reflexivity |]. split; [| split].
  - intros x Hx Hin. vm_compute in Hin. simpl in Hx.
    repeat (destruct Hx as [<- | Hx];
            [repeat (destruct Hin as [Hin | Hin]; [discriminate Hin |]);
             exact Hin |]).
    exact Hx.
  - intros ion z b logN rf i [num [[[v0 v1] v2] v3]] Hitem.
    rewrite components_from_array_eq. unfold names, lmfit_Parameters.
    rewrite list_lookup_fmap.
    replace (4 * i)%nat with (4 * i + 0)%nat by lia.
    rewrite (lookup_entries ion _ i 0 _ Hitem) by lia. reflexivity.
  - intros py_int py_float. vm_compute. reflexivity.
Qed.

(** * Further properties of the Component class *)

(** The setter of [rf] leaves a value of [[0,1]], whatever was there. *)
Lemma set_rf_range (self : Component) (val : Q) :
  (0 <= Component_rf (fst (set_rf self val)))%Q /\
  (Component_rf (fst (set_rf self val)) <= 1)%Q.
Proof.
  unfold set_rf, py_gt.
  destruct (py_lt val 0) eqn:E0, (py_lt 1 val) eqn:E1; simpl;
    try (split; discriminate).
  split; now apply py_lt_false.
Qed.

Lemma mutate_all_cons (self : Component) (m : mutation) (ms : list mutation) :
  mutate_all self (m :: ms) = mutate_all (mutate self m) ms.
Proof. reflexivity. Qed.

(** X3. Reading [b] or [rf] back after an assignment and assigning the
    value read changes nothing and prints nothing: what a setter stores
    is accepted by that setter as it is. *)
Theorem read_back_assignment_is_silent (self : Component) (val : Q) :
  (let c := fst (set_b self val) in set_b c (Component_b c) = (c, [])) /\
  (let c := fst (set_rf self val) in set_rf c (Component_rf c) = (c, [])).
Proof.
  split; cbv zeta.
  - assert (H := set_b_nonneg self val). apply py_lt_false in H.
    unfold set_b at 1. rewrite H.
    unfold set_b. destruct (py_lt val 0); reflexivity.
  - destruct (set_rf_range self val) as [H0 H1].
    apply py_lt_false in H0, H1.
    unfold set_rf at 1, py_gt. rewrite H0, H1. simpl.
    unfold set_rf, py_gt.
    destruct (py_lt val 0), (py_lt 1 val); reflexivity.
Qed.

(** X4. An assignment changes the attribute it names and nothing else:
    [z] and [logN] take any value as it is and print nothing, and no
    assignment touches the three other parameters or the options;
    [set_option] leaves the four parameters alone. *)
Theorem assignment_changes_one_attribute (self : Component) (val : Q)
    (key : string) (value : option_value) :
  (let c := fst (set_z self val) in
   Component_z c = val /\ snd (set_z self val) = [] /\
   Component_b c = Component_b self /\ Component_logN c = Component_logN self /\
   Component_rf c = Component_rf self /\ options c = options self) /\
  (let c := fst (set_logN self val) in
   Component_logN c = val /\ snd (set_logN self val) = [] /\
   Component_z c = Component_z self /\ Component_b c = Component_b self /\
   Component_rf c = Component_rf self /\ options c = options self) /\
  (let c := fst (set_b self val) in
   Component_z c = Component_z self /\ Component_logN c = Component_logN self /\
   Component_rf c = Component_rf self /\ options c = options self) /\
  (let c := fst (set_rf self val) in
   Component_z c = Component_z self /\ Component_b c = Component_b self /\
   Component_logN c = Component_logN self /\ options c = options self) /\
  get_pars (set_option self key value) = get_pars self.
Proof.
  repeat split.
  all: unfold set_b, set_rf, py_gt;
    destruct (py_lt val 0), (py_lt 1 val); reflexivity.
Qed.

(** X5. A setter prints its warning exactly when it stores something else
    than the value assigned: a silent assignment to [b] or [rf] has stored
    the value as it is, and a warning means the value was replaced. *)
Theorem warning_iff_value_replaced (self : Component) (val : Q) :
  (snd (set_b self val) = [] <-> Component_b (fst (set_b self val)) = val) /\
  (snd (set_b self val) = [warning_b]
   <-> Component_b (fst (set_b self val)) <> val) /\
  (snd (set_rf self val) = []
   <-> Component_rf (fst (set_rf self val)) = val) /\
  (snd (set_rf self val) = [warning_rf]
   <-> Component_rf (fst (set_rf self val)) <> val).
Proof.
  assert (Hb : py_lt val 0 = true -> Qabs val <> val).
  { intros Hlt Heq. apply py_lt_true in Hlt.
    apply (Qlt_not_le _ _ Hlt). rewrite <- Heq. apply Qabs_nonneg. }
  assert (H1 : py_lt 1 val = true -> 1%Q <> val).
  { intros Hlt <-. discriminate Hlt. }
  assert (H0 : py_lt val 0 = true -> 0%Q <> val).
  { intros Hlt <-. discriminate Hlt. }
  unfold set_b, set_rf, py_gt.
  destruct (py_lt val 0) eqn:E0, (py_lt 1 val) eqn:E1; simpl;
    repeat split; intros H; try reflexivity; try discriminate H;
    try (now destruct (Hb eq_refl)); try (now destruct (H1 eq_refl));
    try (now destruct (H0 eq_refl)); try (now destruct H);
    try (now apply Hb); try (now apply H1); try (now apply H0).
Qed.

(** * Further properties of the options *)

(** No write removes a key from [options]. *)
Lemma mutate_keeps_key (self : Component) (m : mutation) (key : string) :
  is_Some (options self !! key) -> is_Some (options (mutate self m) !! key).
Proof.
  intros Hkey. destruct m; simpl; try exact Hkey.
  - unfold set_b. destruct (py_lt val 0); exact Hkey.
  - unfold set_rf, py_gt.
    destruct (py_lt val 0), (py_lt 1 val); exact Hkey.
  - destruct (decide (key0 = key)) as [-> | Hne].
    + rewrite lookup_insert_eq. now eexists.
    + now rewrite lookup_insert_ne.
Qed.

Lemma init_has_option_keys z b logN rf vz vb vN vrf tz tb tN trf
    (key : string) :
  In key option_keys ->
  is_Some (options (Component_init z b logN rf vz vb vN vrf tz tb tN trf)
             !! key).
Proof.
  simpl. intros H.
  repeat (destruct H as [<- | H]; [now eexists |]). destruct H.
Qed.

(** X6. On a Component made by the constructor, [get_option] never fails
    for one of the eight option names, whatever has been assigned and
    whatever [set_option] has been called with since: the keys of the
    constructor are never removed. *)
Theorem option_keys_always_present z b logN rf vz vb vN vrf tz tb tN trf
    (ms : list mutation) (key : string) :
  In key option_keys ->
  exists v,
    get_option
      (mutate_all (Component_init z b logN rf vz vb vN vrf tz tb tN trf) ms)
      key = Ok v.
Proof.
  intros Hkey.
  assert (Hsome : is_Some
    (options
       (mutate_all (Component_init z b logN rf vz vb vN vrf tz tb tN trf) ms)
     !! key)).
  { generalize (init_has_option_keys z b logN rf vz vb vN vrf tz tb tN trf
                  key Hkey).
    generalize (Component_init z b logN rf vz vb vN vrf tz tb tN trf).
    induction ms as [| m ms IH]; intros self H; [exact H |].
    rewrite mutate_all_cons. apply IH, mutate_keeps_key, H. }
  destruct Hsome as [v Hv]. exists v. unfold get_option. now rewrite Hv.
Qed.

Lemma option_keys_always_present_witness :
  exists v,
    get_option
      (mutate_all (Component_new 0 1 13 1)
         [SetOption "note" PyNone; SetB (-2); SetOption "var_N" (PyBool false)])
      "var_N" = Ok v.
Proof.
  apply option_keys_always_present. simpl; tauto.
Defined.

(** X7. A new Component gives back, under each of the eight option names,
    the argument the constructor received for it; with the defaults these
    are [True] for the four [var_] options and [None] for the four [tie_]
    options. *)
Theorem init_options_read_back z b logN rf vz vb vN vrf tz tb tN trf :
  let self := Component_init z b logN rf vz vb vN vrf tz tb tN trf in
  (get_option self "var_z" = Ok vz /\ get_option self "var_b" = Ok vb /\
   get_option self "var_N" = Ok vN /\ get_option self "var_rf" = Ok vrf /\
   get_option self "tie_z" = Ok tz /\ get_option self "tie_b" = Ok tb /\
   get_option self "tie_N" = Ok tN /\ get_option self "tie_rf" = Ok trf) /\
  (forall key, In key option_keys ->
     get_option (Component_new z b logN rf) key
     = Ok (if String.prefix "var_" key then PyBool true else PyNone)) /\
  (forall key, get_option self key <> Raise KeyError <-> In key option_keys).
Proof.
  cbv zeta. split; [repeat split |]. split.
  - simpl. intros key H.
    repeat (destruct H as [<- | H]; [reflexivity |]). destruct H.
  - intros key. split.
    + intros Hget.
      destruct (in_dec string_dec key option_keys) as [Hin | Hout];
        [exact Hin |].
      destruct Hget. unfold get_option.
      now rewrite (init_options_unknown_key _ _ _ _ _ _ _ _ _ _ _ _ _ Hout).
    + intros Hin Hget.
      destruct (init_has_option_keys z b logN rf vz vb vN vrf tz tb tN trf
                  key Hin) as [v Hv].
      unfold get_option in Hget. rewrite Hv in Hget. discriminate Hget.
Qed.

Lemma init_options_read_back_witness :
  get_option (Component_new 0 1 13 1) "tie_rf" = Ok PyNone /\
  get_option (Component_new 0 1 13 1) "var_rf" = Ok (PyBool true).
Proof.
  destruct (init_options_read_back 0 1 13 1
              (PyBool true) (PyBool true) (PyBool true) (PyBool true)
              PyNone PyNone PyNone PyNone) as (_ & Hnew & _).
  split; apply Hnew; simpl; tauto.
Defined.

(** X8. Of two calls of [set_option] with the same key the later one
    wins: the Component is the one the later call alone would give. *)
Theorem set_option_overwrites (self : Component) (key : string)
    (v1 v2 : option_value) :
  set_option (set_option self key v1) key v2 = set_option self key v2.
Proof.
  unfold set_option; simpl. f_equal. apply insert_insert_eq.
Qed.

(** X9. Calls of [set_option] with different keys can be made in either
    order. *)
Theorem set_option_commutes (self : Component) (k1 k2 : string)
    (v1 v2 : option_value) :
  k1 <> k2 ->
  set_option (set_option self k1 v1) k2 v2
  = set_option (set_option self k2 v2) k1 v1.
Proof.
  intros Hne. unfold set_option; simpl. f_equal.
  now apply insert_insert_ne.
Qed.

Lemma set_option_commutes_witness :
  set_option (set_option (Component_new 0 1 13 1) "var_z" (PyBool false))
             "tie_b" (PyStr "b0_FeII")
  = set_option (set_option (Component_new 0 1 13 1) "tie_b" (PyStr "b0_FeII"))
               "var_z" (PyBool false).
Proof. apply set_option_commutes. discriminate. Defined.

(** X10. Storing under a key the value [get_option] returns for it leaves
    the Component as it is. *)
Theorem set_option_of_read_value (self : Component) (key : string)
    (v : option_value) :
  get_option self key = Ok v -> set_option self key v = self.
Proof.
  unfold get_option, set_option. intros Hget.
  destruct (options self !! key) as [v' |] eqn:Hv; [| discriminate Hget].
  injection Hget as ->. destruct self as [z b logN rf opts]; simpl in *.
  f_equal. now apply insert_id.
Qed.

Lemma set_option_of_read_value_witness :
  get_option (Component_new 0 1 13 1) "var_b" = Ok (PyBool true) /\
  set_option (Component_new 0 1 13 1) "var_b" (PyBool true)
  = Component_new 0 1 13 1.
Proof.
  assert (H : get_option (Component_new 0 1 13 1) "var_b" = Ok (PyBool true))
    by reflexivity.
  split; [exact H |]. apply set_option_of_read_value, H.
Defined.

(** X11. Each of the eight properties reads and writes [options] under
    its own name, so the attribute and the [get_option]/[set_option]
    interfaces are interchangeable: the setter of a property is
    [set_option] with its name, its getter is [get_option] with its name,
    and the eight names are the option names. *)
Theorem properties_match_options :
  (forall key, In key option_keys <-> In key (map fst property_getters)) /\
  map fst property_setters = map fst property_getters /\
  Forall (fun item => forall self,
            snd item self = get_option self (fst item))
         property_getters /\
  Forall (fun item => forall self val,
            snd item self val = set_option self (fst item) val /\
            get_option (snd item self val) (fst item) = Ok val)
         property_setters.
Proof.
  split; [| split; [reflexivity | split]].
  - intros key. simpl. tauto.
  - repeat constructor.
  - repeat constructor; unfold get_option; simpl; now rewrite lookup_insert_eq.
Qed.

(** * Further properties of the file loader *)

Section LoaderCases.

Variable py_int : string -> option Z.
Variable py_float : string -> option Q.

(** A line that is not taken is skipped; a line that is taken raises. *)
Lemma read_line_not_taken (acc : list comp_pars) (line : string) :
  taken_line line = false -> read_line py_int py_float acc line = Ok acc.
Proof.
  unfold taken_line. intros H. apply andb_false_iff in H.
  destruct H as [H | H].
  - now apply read_line_not_data.
  - apply read_line_other_count. now apply Nat.eqb_neq.
Qed.

Lemma read_line_taken (acc : list comp_pars) (line : string) :
  taken_line line = true ->
  read_line py_int py_float acc line = Raise ValueError \/
  read_line py_int py_float acc line = Raise IndexError.
Proof.
  unfold taken_line. intros H. apply andb_true_iff in H.
  destruct H as [Hdata Hcount].
  apply read_line_eight_tokens; [exact Hdata | now apply Nat.eqb_eq].
Qed.

(** The lines before the first taken line are skipped, and the first
    taken line ends the loop with its error. *)
Lemma read_lines_first_taken (before after : list string) (line : string)
    (acc : list comp_pars) (e : exn) :
  (forall l, In l before -> taken_line l = false) ->
  read_line py_int py_float acc line = Raise e ->
  read_lines py_int py_float (before ++ line :: after)%list acc = Raise e.
Proof.
  intros Hbefore Hline.
  induction before as [| l before IH]; simpl.
  - now rewrite Hline.
  - rewrite read_line_not_taken by (apply Hbefore; now left). simpl.
    apply IH. intros l' Hl'. apply Hbefore. now right.
Qed.

Lemma read_lines_none_taken (lines : list string) (acc : list comp_pars) :
  (forall l, In l lines -> taken_line l = false) ->
  read_lines py_int py_float lines acc = Ok acc.
Proof.
  induction lines as [| l lines IH]; intros Hnone; simpl; [reflexivity |].
  rewrite read_line_not_taken by (apply Hnone; now left). simpl.
  apply IH. intros l' Hl'. apply Hnone. now right.
Qed.

(** The first taken line of a list, with what is before and after it. *)
Lemma first_taken_line (lines : list string) :
  (forall l, In l lines -> taken_line l = false) \/
  exists before line after,
    lines = (before ++ line :: after)%list /\
    (forall l, In l before -> taken_line l = false) /\
    taken_line line = true.
Proof.
  induction lines as [| l lines IH].
  - left. intros l [].
  - destruct (taken_line l) eqn:Hl.
    + right. exists [], l, lines. repeat split; [intros l' [] | exact Hl].
    + destruct IH as [Hnone | (before & line & after & -> & Hbefore & Hline)].
      * left. intros l' [<- | Hl']; [exact Hl | now apply Hnone].
      * right. exists (l :: before), line, after.
        repeat split; [| exact Hline].
        intros l' [<- | Hl']; [exact Hl | now apply Hbefore].
Qed.

(** X12. Whatever the file holds and whatever [int] and [float] accept,
    a call of the loader that returns, returns the empty parameter set:
    no line of any file becomes an entry. *)
Theorem loader_returns_no_entry (fs : gmap string string) (fname : string)
    (pars : lmfit_Parameters) :
  load_components_from_file py_int py_float fs fname = Ok pars -> pars = [].
Proof.
  unfold load_components_from_file.
  destruct (fs !! fname) as [text |]; [| discriminate].
  destruct (first_taken_line (readlines text))
    as [Hnone | (before & line & after & -> & Hbefore & Hline)].
  - rewrite (read_lines_none_taken _ _ Hnone). cbn [bind add_components].
    now intros [= <-].
  - destruct (read_line_taken [] line Hline) as [He | He];
      rewrite (read_lines_first_taken before after line [] _ Hbefore He);
      discriminate.
Qed.

(** X13. For a file that can be read, the loader returns exactly when no
    line of it is a data line of 8 tokens, and raises exactly when one
    is. *)
Theorem loader_returns_iff (fs : gmap string string) (fname text : string) :
  fs !! fname = Some text ->
  (load_components_from_file py_int py_float fs fname = Ok []
   <-> forall l, In l (readlines text) -> taken_line l = false) /\
  (raises (load_components_from_file py_int py_float fs fname)
   <-> exists l, In l (readlines text) /\ taken_line l = true).
Proof.
  intros Hfile.
  assert (Hnone : (forall l, In l (readlines text) -> taken_line l = false) ->
                  load_components_from_file py_int py_float fs fname = Ok []).
  { intros H. unfold load_components_from_file. rewrite Hfile.
    now rewrite read_lines_none_taken. }
  assert (Hsome : (exists l, In l (readlines text) /\ taken_line l = true) ->
                  raises (load_components_from_file py_int py_float fs fname)).
  { intros (l & Hin & Hl). unfold taken_line in Hl.
    apply andb_true_iff in Hl. destruct Hl as [Hdata Hcount].
    apply (load_eight_tokens_raises py_int py_float fs fname text l);
      [exact Hfile | exact Hin | exact Hdata | now apply Nat.eqb_eq]. }
  destruct (first_taken_line (readlines text))
    as [H | (before & line & after & Heq & Hbefore & Hline)].
  - split; split; try (intros _; exact H); try exact Hnone.
    + intros (e & He). rewrite (Hnone H) in He. discriminate He.
    + exact Hsome.
  - assert (Hex : exists l, In l (readlines text) /\ taken_line l = true).
    { exists line. split; [| exact Hline].
      rewrite Heq. apply in_or_app. right. now left. }
    split; split; try exact Hnone; try exact Hsome; try (intros _; exact Hex).
    intros Hok l Hl. destruct (Hsome Hex) as (e & He).
    rewrite He in Hok. discriminate Hok.
Qed.

(** X15. The first data line of 8 tokens decides the error: the loader
    raises [IndexError] when the first token is an integer and the third
    to eighth tokens are numbers, and [ValueError] when one of them is
    not. The ion label, the second token, is not looked at. *)
Theorem first_taken_line_decides (fs : gmap string string)
    (fname text : string) (before after : list string) (line : string)
    (t0 t1 t2 t3 t4 t5 t6 t7 : string) :
  fs !! fname = Some text ->
  readlines text = (before ++ line :: after)%list ->
  (forall l, In l before -> taken_line l = false) ->
  is_data_line line = true ->
  split (strip line) = [t0; t1; t2; t3; t4; t5; t6; t7] ->
  load_components_from_file py_int py_float fs fname
  = Raise (if parsed (py_int t0)
              && forallb (fun t => parsed (py_float t))
                         [t2; t3; t4; t5; t6; t7]
           then IndexError else ValueError).
Proof.
  intros Hfile Hlines Hbefore Hdata Htokens.
  unfold load_components_from_file. rewrite Hfile, Hlines.
  erewrite read_lines_first_taken; [reflexivity | exact Hbefore |].
  unfold is_data_line in Hdata. unfold read_line.
  destruct (strip line) as [| c rest]; [discriminate |].
  destruct (Ascii.eqb c "#"); [discriminate |].
  rewrite Htokens. simpl. unfold getitem, int, float; simpl.
  destruct (py_int t0); simpl; [| reflexivity].
  destruct (py_float t2); simpl; [| reflexivity].
  destruct (py_float t3); simpl; [| reflexivity].
  destruct (py_float t4); simpl; [| reflexivity].
  destruct (py_float t5); simpl; [| reflexivity].
  destruct (py_float t6); simpl; [| reflexivity].
  destruct (py_float t7); simpl; reflexivity.
Qed.

End LoaderCases.

Lemma loader_returns_no_entry_witness :
  load_components_from_file decimal_int decimal_float
    (fit_file FeII_line) "dataset.fit" = Ok [] /\
  @nil (string * lmfit_Parameter) = [].
Proof.
  split; [vm_compute; reflexivity |].
  apply (loader_returns_no_entry decimal_int decimal_float
           (fit_file FeII_line) "dataset.fit").
  vm_compute; reflexivity.
Defined.

Lemma loader_returns_iff_witness :
  fit_file six_token_line !! "dataset.fit" = Some (fit_text six_token_line) /\
  (load_components_from_file decimal_int decimal_float
     (fit_file six_token_line) "dataset.fit" = Ok []
   <-> forall l, In l (readlines (fit_text six_token_line)) ->
                 taken_line l = false).
Proof.
  split; [reflexivity |].
  apply (loader_returns_iff decimal_int decimal_float
           (fit_file six_token_line) "dataset.fit" (fit_text six_token_line)).
  reflexivity.
Defined.

Lemma first_taken_line_decides_witness :
  load_components_from_file decimal_int decimal_float
    (fit_file eight_token_line) "dataset.fit" = Raise IndexError.
Proof.
  apply (first_taken_line_decides decimal_int decimal_float
           (fit_file eight_token_line) "dataset.fit"
           (fit_text eight_token_line)
           ["# best-fit parameters" ++ nl; nl] [] (eight_token_line ++ nl)
           "0" "FeII" "0.52341" "0.00002" "12.3" "0.4" "14.52" "0.03").
  - reflexivity.
  - vm_compute; reflexivity.
  - intros l [<- | [<- | []]]; vm_compute; reflexivity.
  - reflexivity.
  - vm_compute; reflexivity.
Defined.

(** * Comment lines and blank lines *)

Lemma append_assoc' (a b c : string) : (a ++ b) ++ c = a ++ (b ++ c).
Proof.
  induction a as [| x a IH]; unfold_append; [reflexivity |]. now rewrite IH.
Qed.

Lemma rev_app_append (a b t : string) :
  String.rev_app (a ++ b) t = String.rev_app b (String.rev_app a t).
Proof.
  revert t. induction a as [| x a IH]; intros t; unfold_append; simpl;
    [reflexivity | apply IH].
Qed.

Lemma rev_app_spec (s t : string) :
  String.rev_app s t = String.rev s ++ t.
Proof.
  unfold String.rev. revert t.
  induction s as [| x s IH]; intros t; simpl; [reflexivity |].
  rewrite (IH (String x t)), (IH (String x "")), append_assoc'.
  reflexivity.
Qed.

Lemma lstrip_blank (ws s : string) :
  blank ws = true -> lstrip (ws ++ s) = lstrip s.
Proof.
  induction ws as [| c ws IH]; unfold_append; simpl; [reflexivity |].
  intros H. apply andb_true_iff in H. destruct H as [Hc Hws].
  rewrite Hc. now apply IH.
Qed.

(** Stripping on the left stops at a character that is not white space,
    at the latest. *)
Lemma lstrip_before_nonspace (u : string) (c : ascii) (t : string) :
  isspace c = false -> exists u', lstrip (u ++ String c t) = u' ++ String c t.
Proof.
  intros Hc. induction u as [| x u IH]; unfold_append; simpl.
  - rewrite Hc. now exists "".
  - destruct (isspace x); [exact IH |]. now exists (String x u).
Qed.

Lemma rstrip_head (c : ascii) (rest : string) :
  isspace c = false -> exists rest', rstrip (String c rest) = String c rest'.
Proof.
  intros Hc. unfold rstrip, String.rev at 2. simpl.
  rewrite rev_app_spec.
  destruct (lstrip_before_nonspace (String.rev rest) c "" Hc) as [u' ->].
  exists (String.rev u'). unfold String.rev at 1.
  now rewrite rev_app_append.
Qed.

(** The first character of a stripped line is its first character that is
    not white space. *)
Lemma strip_head (ws : string) (c : ascii) (rest : string) :
  blank ws = true -> isspace c = false ->
  exists rest', strip (ws ++ String c rest) = String c rest'.
Proof.
  intros Hws Hc. unfold strip. rewrite (lstrip_blank ws _ Hws). simpl.
  rewrite Hc. now apply rstrip_head.
Qed.

Lemma strip_blank (ws : string) : blank ws = true -> strip ws = "".
Proof.
  intros Hws. unfold strip.
  replace (lstrip ws) with "".
  - reflexivity.
  - induction ws as [| c ws IH]; simpl in *; [reflexivity |].
    apply andb_true_iff in Hws. destruct Hws as [Hc Hws].
    rewrite Hc. now apply IH.
Qed.

(** X16. A line whose first character after leading white space is [#]
    is skipped whatever follows, and so is a line of white space only:
    a comment raises nothing even when it has 8 tokens. *)
Theorem comment_and_blank_lines_skipped
    (py_int : string -> option Z) (py_float : string -> option Q)
    (components_to_add : list comp_pars) (ws rest : string) :
  blank ws = true ->
  read_line py_int py_float components_to_add (ws ++ String "#" rest)
    = Ok components_to_add /\
  read_line py_int py_float components_to_add ws = Ok components_to_add.
Proof.
  intros Hws. split.
  - destruct (strip_head ws "#" rest Hws eq_refl) as [rest' Hstrip].
    unfold read_line. now rewrite Hstrip.
  - unfold read_line. now rewrite (strip_blank ws Hws).
Qed.

Lemma comment_and_blank_lines_skipped_witness :
  blank "  " = true /\
  token_count ("  " ++ "# 0 FeII 0.52341 0.00002 12.3 0.4 14.52") = 8%nat /\
  read_line decimal_int decimal_float []
    ("  " ++ "# 0 FeII 0.52341 0.00002 12.3 0.4 14.52") = Ok [].
Proof.
  split; [reflexivity |]. split; [reflexivity |].
  apply (comment_and_blank_lines_skipped decimal_int decimal_float []
           "  " " 0 FeII 0.52341 0.00002 12.3 0.4 14.52").
  reflexivity.
Defined.

(** * The characters of a parameter name *)

Lemma has_char_append (c : ascii) (s t : string) :
  has_char c (s ++ t) = has_char c s || has_char c t.
Proof.
  induction s as [| x s IH]; unfold_append; cbn [has_char]; [reflexivity |].
  now rewrite IH, orb_assoc.
Qed.

(** ['%i'] writes digits and the minus sign only. *)
Lemma has_char_uint (c : ascii) (d : Decimal.uint) :
  digit c = None -> has_char c (NilEmpty.string_of_uint d) = false.
Proof.
  intros Hc.
  induction d as [| d IH | d IH | d IH | d IH | d IH | d IH | d IH | d IH
                  | d IH | d IH];
    cbn [has_char NilEmpty.string_of_uint]; [reflexivity | ..];
    rewrite IH, orb_false_r;
    match goal with
    | |- Ascii.eqb ?x c = false =>
        destruct (Ascii.eqb_spec x c) as [<- | _];
        [discriminate Hc | reflexivity]
    end.
Qed.

Lemma has_char_fmt_i (c : ascii) (num : Z) :
  digit c = None -> c <> "-"%char -> has_char c (fmt_i num) = false.
Proof.
  intros Hc Hminus. unfold fmt_i.
  assert (Hu : forall d, has_char c (NilZero.string_of_uint d) = false).
  { intros d. unfold NilZero.string_of_uint.
    destruct d; try apply (has_char_uint c _ Hc).
    cbn [has_char]. rewrite orb_false_r.
    destruct (Ascii.eqb_spec "0" c) as [<- | _];
      [discriminate Hc | reflexivity]. }
  destruct (Z.to_int num) as [d | d];
    cbn [NilZero.string_of_int has_char]; [apply Hu |].
  rewrite Hu, orb_false_r.
  destruct (Ascii.eqb_spec "-" c) as [<- | _]; [now destruct Hminus | easy].
Qed.

(** A string is cut in one way at its first occurrence of a character. *)
Lemma append_char_inj (c : ascii) (s1 s2 t1 t2 : string) :
  has_char c s1 = false -> has_char c s2 = false ->
  s1 ++ String c t1 = s2 ++ String c t2 -> s1 = s2 /\ t1 = t2.
Proof.
  revert s2. induction s1 as [| x s1 IH]; intros [| y s2] H1 H2 H;
    unfold_append; cbn [has_char] in H1, H2.
  - injection H as ->. now split.
  - injection H as -> _. rewrite Ascii.eqb_refl in H2. discriminate H2.
  - injection H as -> _. rewrite Ascii.eqb_refl in H1. discriminate H1.
  - injection H as -> H.
    apply orb_false_iff in H1, H2. destruct H1 as [_ H1], H2 as [_ H2].
    destruct (IH s2 H1 H2 H) as [-> ->]. now split.
Qed.

(** A name determines its field, its index and its ion label. *)
Lemma fmt_name_inj_ion (f1 f2 : string) (n1 n2 : Z) (ion1 ion2 : string) :
  In f1 fields -> In f2 fields ->
  fmt_name f1 n1 ion1 = fmt_name f2 n2 ion2 ->
  f1 = f2 /\ n1 = n2 /\ ion1 = ion2.
Proof.
  assert (Hcut : forall a b,
    fmt_i a ++ "_" ++ ion1 = fmt_i b ++ "_" ++ ion2 -> a = b /\ ion1 = ion2).
  { intros a b H. unfold_append.
    apply (append_char_inj "_") in H;
      [| now apply has_char_fmt_i | now apply has_char_fmt_i].
    destruct H as [H ->]. split; [now apply fmt_i_inj | reflexivity]. }
  unfold fields, fmt_name. simpl.
  intros [<- | [<- | [<- | [<- | []]]]] [<- | [<- | [<- | [<- | []]]]] H;
    unfold_append; try discriminate H;
    (split; [reflexivity |]); repeat injection H as H;
    unfold_append; exact (Hcut _ _ H).
Qed.

(** * The second loop of the loader *)

Lemma names_add_iff (name : string) (v : Q) (pars : lmfit_Parameters)
    (x : string) :
  In x (names (Parameters_add name v pars)) <-> x = name \/ In x (names pars).
Proof.
  split; [apply names_add |].
  induction pars as [| [n p] rest IH]; cbn [Parameters_add names map fst].
  - intros [-> | []]. now left.
  - destruct (String.eqb_spec n name) as [-> | Hne];
      cbn [names map fst In]; fold (names rest);
      fold (names (Parameters_add name v rest)).
    + intros [-> | [-> | H]]; tauto.
    + intros [-> | [-> | H]]; [right; apply IH | |]; tauto.
Qed.

(** Setting the standard error of an entry that is there succeeds and
    keeps the names. *)
Lemma set_stderr_present (name : string) (err : Q) (pars : lmfit_Parameters) :
  In name (names pars) ->
  exists pars',
    Parameters_set_stderr name err pars = Ok pars' /\ names pars' = names pars.
Proof.
  induction pars as [| [n p] rest IH]; [intros [] |].
  intros Hin. cbn [Parameters_set_stderr].
  destruct (String.eqb_spec n name) as [-> | Hne].
  - eexists. split; reflexivity.
  - destruct IH as (rest' & -> & Hnames).
    + destruct Hin as [Heq | Hin]; [now destruct Hne | exact Hin].
    + eexists. split; [reflexivity |]. cbn. now f_equal.
Qed.

Lemma set_stderr_app (name : string) (err : Q) (p q : lmfit_Parameters) :
  ~ In name (names p) ->
  Parameters_set_stderr name err (p ++ q)%list
  = let* q' := Parameters_set_stderr name err q in Ok (p ++ q')%list.
Proof.
  induction p as [| [n e] p IH]; intros Hfresh.
  - cbn [app]. now destruct (Parameters_set_stderr name err q).
  - cbn [app Parameters_set_stderr].
    destruct (String.eqb_spec n name) as [-> | Hne].
    + destruct Hfresh. now left.
    + rewrite IH by (intros H; apply Hfresh; now right).
      now destruct (Parameters_set_stderr name err q).
Qed.

(** The eight steps of the loop body on four new, different names. *)
Lemma four_entries (n1 n2 n3 n4 : string) (v1 v2 v3 v4 e1 e2 e3 e4 : Q)
    (pars : lmfit_Parameters) :
  List.NoDup [n1; n2; n3; n4] ->
  (forall n, In n [n1; n2; n3; n4] -> ~ In n (names pars)) ->
  (let pars := Parameters_add n1 v1 pars in
   let pars := Parameters_add n2 v2 pars in
   let pars := Parameters_add n3 v3 pars in
   let pars := Parameters_add n4 v4 pars in
   let* pars := Parameters_set_stderr n1 e1 pars in
   let* pars := Parameters_set_stderr n2 e2 pars in
   let* pars := Parameters_set_stderr n3 e3 pars in
   let* pars := Parameters_set_stderr n4 e4 pars in
   Ok pars)
  = Ok (pars ++ [ (n1, mkParameter v1 (Some e1));
                  (n2, mkParameter v2 (Some e2));
                  (n3, mkParameter v3 (Some e3));
                  (n4, mkParameter v4 (Some e4)) ])%list.
Proof.
  intros Hnd Hfresh.
  assert (H12 : n1 <> n2 /\ n1 <> n3 /\ n1 <> n4 /\ n2 <> n3 /\ n2 <> n4
                /\ n3 <> n4).
  { inversion Hnd as [| ? ? Hn1 Hnd1]; subst.
    inversion Hnd1 as [| ? ? Hn2 Hnd2]; subst.
    inversion Hnd2 as [| ? ? Hn3 _]; subst.
    cbn [In] in Hn1, Hn2, Hn3. repeat split; intros ->; tauto. }
  destruct H12 as (H12 & H13 & H14 & H23 & H24 & H34).
  assert (F1 : ~ In n1 (names pars)) by (apply Hfresh; cbn; tauto).
  assert (F2 : ~ In n2 (names pars)) by (apply Hfresh; cbn; tauto).
  assert (F3 : ~ In n3 (names pars)) by (apply Hfresh; cbn; tauto).
  assert (F4 : ~ In n4 (names pars)) by (apply Hfresh; cbn; tauto).
  cbv zeta.
  rewrite (Parameters_add_fresh n1) by exact F1.
  rewrite (Parameters_add_fresh n2)
    by (rewrite names_app; cbn; intros [H | [H | []]]; tauto).
  rewrite (Parameters_add_fresh n3)
    by (rewrite !names_app; cbn;
        intros [[H | [H | []]] | [H | []]]; tauto).
  rewrite (Parameters_add_fresh n4)
    by (rewrite !names_app; cbn;
        intros [[[H | [H | []]] | [H | []]] | [H | []]]; tauto).
  rewrite <- !app_assoc. cbn [app].
  assert (E12 := proj2 (String.eqb_neq n1 n2) H12).
  assert (E13 := proj2 (String.eqb_neq n1 n3) H13).
  assert (E14 := proj2 (String.eqb_neq n1 n4) H14).
  assert (E23 := proj2 (String.eqb_neq n2 n3) H23).
  assert (E24 := proj2 (String.eqb_neq n2 n4) H24).
  assert (E34 := proj2 (String.eqb_neq n3 n4) H34).
  rewrite (set_stderr_app n1) by exact F1.
  cbn [Parameters_set_stderr bind]. rewrite String.eqb_refl. cbn [bind value].
  rewrite (set_stderr_app n2) by exact F2.
  cbn [Parameters_set_stderr bind]. rewrite E12, String.eqb_refl.
  cbn [bind value].
  rewrite (set_stderr_app n3) by exact F3.
  cbn [Parameters_set_stderr bind]. rewrite E13, E23, String.eqb_refl.
  cbn [bind value].
  rewrite (set_stderr_app n4) by exact F4.
  cbn [Parameters_set_stderr bind]. rewrite E14, E24, E34, String.eqb_refl.
  reflexivity.
Qed.

(** The names of one component are four different names. *)
Lemma row_names_NoDup (num : Z) (ion : string) :
  List.NoDup [ fmt_name "z" num ion; fmt_name "b" num ion;
               fmt_name "logN" num ion; fmt_name "rf" num ion ].
Proof.
  assert (Hdiff : forall f g, In f fields -> In g fields -> f <> g ->
                  fmt_name f num ion <> fmt_name g num ion).
  { intros f g Hf Hg Hne Heq. apply Hne.
    now apply (fmt_name_inj f g _ _ ion Hf Hg Heq). }
  assert (Hz : In "z" fields) by (apply in_fields; tauto).
  assert (Hb : In "b" fields) by (apply in_fields; tauto).
  assert (HN : In "logN" fields) by (apply in_fields; tauto).
  assert (Hrf : In "rf" fields) by (apply in_fields; tauto).
  repeat constructor; cbn [In]; intros H;
    repeat (destruct H as [H | H]; [revert H; now apply Hdiff |]);
    exact H.
Qed.

Lemma add_component_fresh (pars : lmfit_Parameters) (c : comp_pars) :
  (forall f, In f fields ->
     ~ In (fmt_name f (cp_num c) (replace "*" "x" (cp_ion c))) (names pars)) ->
  add_component pars c = Ok (pars ++ entries_of_row c)%list.
Proof.
  intros Hfresh. unfold add_component, entries_of_row. cbv zeta.
  apply four_entries; [apply row_names_NoDup |].
  intros n Hn. cbn [In] in Hn.
  destruct Hn as [<- | [<- | [<- | [<- | []]]]]; apply Hfresh, in_fields;
    tauto.
Qed.

Lemma names_entries_of_row (c : comp_pars) (x : string) :
  In x (names (entries_of_row c)) ->
  exists f, In f fields /\
            x = fmt_name f (cp_num c) (replace "*" "x" (cp_ion c)).
Proof.
  unfold entries_of_row. cbn [names map fst In].
  intros [<- | [<- | [<- | [<- | []]]]];
    eexists; (split; [apply in_fields | reflexivity]); tauto.
Qed.

Lemma add_components_fresh (rows : list comp_pars) :
  forall pars : lmfit_Parameters,
    List.NoDup (map row_key rows) ->
    (forall x c, In x (names pars) -> In c rows ->
       forall f, In f fields ->
         x <> fmt_name f (cp_num c) (replace "*" "x" (cp_ion c))) ->
    add_components rows pars
    = Ok (pars ++ flat_map entries_of_row rows)%list.
Proof.
  induction rows as [| c rows IH]; intros pars Hnd Hfresh;
    cbn [add_components flat_map map].
  - now rewrite app_nil_r.
  - cbn [map] in Hnd. inversion Hnd as [| ? ? Hkey Hrest]; subst.
    rewrite add_component_fresh.
    + cbn [bind]. rewrite IH; [now rewrite <- app_assoc | exact Hrest |].
      intros x c' Hx Hc' f Hf Heq. apply names_app in Hx.
      destruct Hx as [Hx | Hx].
      * apply (Hfresh x c' Hx (or_intror Hc') f Hf Heq).
      * apply names_entries_of_row in Hx. destruct Hx as (g & Hg & ->).
        apply fmt_name_inj_ion in Heq; [| assumption | assumption].
        destruct Heq as (_ & Hnum & Hion). apply Hkey.
        apply in_map_iff. exists c'. split; [| exact Hc'].
        unfold row_key. now rewrite Hnum, Hion.
    + intros f Hf Hin.
      exact (Hfresh _ c Hin (or_introl eq_refl) f Hf eq_refl).
Qed.

(** Adding a component keeps the names that are there, and the names it
    adds are those of the component. *)
Lemma add_component_names (pars pars' : lmfit_Parameters) (c : comp_pars) :
  add_component pars c = Ok pars' ->
  forall x, In x (names pars') <->
            In x (names pars) \/ In x (names (entries_of_row c)).
Proof.
  unfold add_component. cbv zeta.
  set (ion := replace "*" "x" (cp_ion c)).
  set (p4 := Parameters_add _ _ (Parameters_add _ _ (Parameters_add _ _
               (Parameters_add _ _ pars)))).
  destruct (Parameters_set_stderr (fmt_name "z" (cp_num c) ion)
              (cp_z_err c) p4) as [q1 |] eqn:H1; [| discriminate].
  cbn [bind].
  destruct (Parameters_set_stderr (fmt_name "b" (cp_num c) ion)
              (cp_b_err c) q1) as [q2 |] eqn:H2; [| discriminate].
  cbn [bind].
  destruct (Parameters_set_stderr (fmt_name "logN" (cp_num c) ion)
              (cp_logN_err c) q2) as [q3 |] eqn:H3; [| discriminate].
  cbn [bind].
  destruct (Parameters_set_stderr (fmt_name "rf" (cp_num c) ion)
              (cp_rf_err c) q3) as [q4 |] eqn:H4; [| discriminate].
  cbn [bind]. intros [= <-] x.
  assert (Hkeep : forall n e p q,
            Parameters_set_stderr n e p = Ok q -> names q = names p).
  { intros n e p. induction p as [| [n0 p0] p IHp]; intros q Hq;
      cbn [Parameters_set_stderr] in Hq; [discriminate Hq |].
    destruct (String.eqb n0 n); [now injection Hq as <- |].
    destruct (Parameters_set_stderr n e p) as [p' |]; [| discriminate Hq].
    injection Hq as <-. cbn. f_equal. now apply IHp. }
  rewrite (Hkeep _ _ _ _ H4), (Hkeep _ _ _ _ H3), (Hkeep _ _ _ _ H2),
    (Hkeep _ _ _ _ H1).
  subst p4. rewrite !names_add_iff.
  unfold entries_of_row. fold ion. cbn [names map fst In].
  intuition congruence.
Qed.

(** Once the four entries are there, the four assignments of a standard
    error find them: the loop body returns whenever the four calls of
    [pars.add] have returned. *)
Lemma add_component_total (pars : lmfit_Parameters) (c : comp_pars) :
  exists pars1, add_component pars c = Ok pars1.
Proof.
  unfold add_component. cbv zeta.
  set (ion := replace "*" "x" (cp_ion c)).
  set (p4 := Parameters_add _ _ (Parameters_add _ _ (Parameters_add _ _
               (Parameters_add _ _ pars)))).
  assert (Hin : forall f, In f fields ->
                  In (fmt_name f (cp_num c) ion) (names p4)).
  { intros f Hf. subst p4. rewrite !names_add_iff.
    cbn [fields In] in Hf.
    destruct Hf as [<- | [<- | [<- | [<- | []]]]]; tauto. }
  destruct (set_stderr_present _ (cp_z_err c) p4
              (Hin "z" ltac:(apply in_fields; tauto))) as (q1 & -> & N1).
  cbn [bind].
  destruct (set_stderr_present (fmt_name "b" (cp_num c) ion)
              (cp_b_err c) q1) as (q2 & -> & N2).
  { rewrite N1. apply Hin, in_fields; tauto. }
  cbn [bind].
  destruct (set_stderr_present (fmt_name "logN" (cp_num c) ion)
              (cp_logN_err c) q2) as (q3 & -> & N3).
  { rewrite N2, N1. apply Hin, in_fields; tauto. }
  cbn [bind].
  destruct (set_stderr_present (fmt_name "rf" (cp_num c) ion)
              (cp_rf_err c) q3) as (q4 & -> & N4).
  { rewrite N3, N2, N1. apply Hin, in_fields; tauto. }
  cbn [bind]. now eexists.
Qed.

(** The loop body on the four names of entries that are there already:
    each entry is replaced where it stands. *)
Lemma four_entries_again (n1 n2 n3 n4 : string)
    (p1 p2 p3 p4 : lmfit_Parameter) (v1 v2 v3 v4 e1 e2 e3 e4 : Q) :
  List.NoDup [n1; n2; n3; n4] ->
  (let pars := [(n1, p1); (n2, p2); (n3, p3); (n4, p4)] in
   let pars := Parameters_add n1 v1 pars in
   let pars := Parameters_add n2 v2 pars in
   let pars := Parameters_add n3 v3 pars in
   let pars := Parameters_add n4 v4 pars in
   let* pars := Parameters_set_stderr n1 e1 pars in
   let* pars := Parameters_set_stderr n2 e2 pars in
   let* pars := Parameters_set_stderr n3 e3 pars in
   let* pars := Parameters_set_stderr n4 e4 pars in
   Ok pars)
  = Ok [ (n1, mkParameter v1 (Some e1)); (n2, mkParameter v2 (Some e2));
         (n3, mkParameter v3 (Some e3)); (n4, mkParameter v4 (Some e4)) ].
Proof.
  intros Hnd.
  assert (H12 : n1 <> n2 /\ n1 <> n3 /\ n1 <> n4 /\ n2 <> n3 /\ n2 <> n4
                /\ n3 <> n4).
  { inversion Hnd as [| ? ? Hn1 Hnd1]; subst.
    inversion Hnd1 as [| ? ? Hn2 Hnd2]; subst.
    inversion Hnd2 as [| ? ? Hn3 _]; subst.
    cbn [In] in Hn1, Hn2, Hn3. repeat split; intros ->; tauto. }
  destruct H12 as (H12 & H13 & H14 & H23 & H24 & H34).
  assert (E12 := proj2 (String.eqb_neq n1 n2) H12).
  assert (E13 := proj2 (String.eqb_neq n1 n3) H13).
  assert (E14 := proj2 (String.eqb_neq n1 n4) H14).
  assert (E23 := proj2 (String.eqb_neq n2 n3) H23).
  assert (E24 := proj2 (String.eqb_neq n2 n4) H24).
  assert (E34 := proj2 (String.eqb_neq n3 n4) H34).
  cbv zeta. cbn [Parameters_add].
  rewrite !String.eqb_refl, ?E12, ?E13, ?E14, ?E23, ?E24, ?E34.
  cbn [Parameters_add].
  rewrite !String.eqb_refl, ?E12, ?E13, ?E14, ?E23, ?E24, ?E34.
  cbn [Parameters_add].
  rewrite !String.eqb_refl, ?E12, ?E13, ?E14, ?E23, ?E24, ?E34.
  cbn [Parameters_add].
  rewrite !String.eqb_refl, ?E12, ?E13, ?E14, ?E23, ?E24, ?E34.
  cbn [Parameters_set_stderr bind value].
  rewrite !String.eqb_refl, ?E12, ?E13, ?E14, ?E23, ?E24, ?E34.
  cbn [Parameters_set_stderr bind value].
  rewrite !String.eqb_refl, ?E12, ?E13, ?E14, ?E23, ?E24, ?E34.
  cbn [Parameters_set_stderr bind value].
  rewrite !String.eqb_refl, ?E12, ?E13, ?E14, ?E23, ?E24, ?E34.
  cbn [Parameters_set_stderr bind value].
  rewrite !String.eqb_refl, ?E12, ?E13, ?E14, ?E23, ?E24, ?E34.
  reflexivity.
Qed.

Lemma add_component_again (c1 c2 : comp_pars) :
  row_key c1 = row_key c2 ->
  add_component (entries_of_row c1) c2 = Ok (entries_of_row c2).
Proof.
  unfold row_key. intros [= Hnum Hion].
  unfold add_component, entries_of_row. cbv zeta.
  rewrite Hnum, Hion.
  apply four_entries_again, row_names_NoDup.
Qed.

(** X19. Two components with the same index whose ion labels are the same
    after the substitution, as [Al*] and [Alx] are, share their four
    names: the second loop keeps the later one only, with its values and
    its standard errors. *)
Theorem second_loop_later_component_wins (c1 c2 : comp_pars) :
  row_key c1 = row_key c2 ->
  add_components [c1; c2] [] = add_components [c2] [].
Proof.
  intros Hkey. cbn [add_components].
  rewrite !(add_component_fresh []) by (intros f _ []).
  cbn [bind app]. now rewrite (add_component_again c1 c2 Hkey).
Qed.

Lemma second_loop_later_component_wins_witness :
  add_components
    [ mkCompPars 2 "Al*" 0.1 5 13 0.9 0.01 0.02 0.03 0.04;
      mkCompPars 2 "Alx" 0.2 6 14 0.8 0.05 0.06 0.07 0.08 ] []
  = add_components [mkCompPars 2 "Alx" 0.2 6 14 0.8 0.05 0.06 0.07 0.08] [].
Proof. apply second_loop_later_component_wins. reflexivity. Defined.

Lemma has_char_replace (old new : ascii) (s : string) :
  old <> new -> has_char old (replace old new s) = false.
Proof.
  intros Hne. induction s as [| c s IH]; cbn [replace has_char];
    [reflexivity |].
  rewrite IH, orb_false_r.
  destruct (Ascii.eqb_spec c old) as [-> | Hc].
  - destruct (Ascii.eqb_spec new old) as [-> | _];
      [now destruct Hne | reflexivity].
  - destruct (Ascii.eqb_spec c old) as [-> | _];
      [now destruct Hc | reflexivity].
Qed.

Lemma replace_absent (old new : ascii) (s : string) :
  has_char old s = false -> replace old new s = s.
Proof.
  induction s as [| c s IH]; cbn [replace has_char]; [reflexivity |].
  intros H. apply orb_false_iff in H. destruct H as [Hc Hs].
  rewrite Hc. f_equal. now apply IH.
Qed.

(** X20. No name the second loop makes contains [*]: starting from an
    empty parameter set, every name of the result is free of it,
    whatever the ion labels of the components. *)
Theorem second_loop_names_without_star (components_to_add : list comp_pars)
    (pars : lmfit_Parameters) :
  add_components components_to_add [] = Ok pars ->
  forall x, In x (names pars) -> has_char "*" x = false.
Proof.
  assert (Hgen : forall rows pars0 pars1,
    (forall x, In x (names pars0) -> has_char "*" x = false) ->
    add_components rows pars0 = Ok pars1 ->
    forall x, In x (names pars1) -> has_char "*" x = false).
  { induction rows as [| c rows IH]; intros pars0 pars1 H0;
      cbn [add_components].
    - now intros [= <-].
    - destruct (add_component pars0 c) as [p |] eqn:Hc; [| discriminate].
      cbn [bind]. apply IH. intros x Hx.
      apply (add_component_names _ _ _ Hc) in Hx.
      destruct Hx as [Hx | Hx]; [now apply H0 |].
      apply names_entries_of_row in Hx. destruct Hx as (f & Hf & ->).
      unfold fmt_name. rewrite !has_char_append.
      rewrite has_char_fmt_i by easy.
      rewrite has_char_replace by easy.
      cbn [fields In] in Hf.
      destruct Hf as [<- | [<- | [<- | [<- | []]]]]; reflexivity. }
  intros Hok. apply (Hgen components_to_add [] pars); [intros x [] | exact Hok].
Qed.

Lemma second_loop_names_without_star_witness :
  has_char "*" "rf2_Alx" = false.
Proof.
  apply (second_loop_names_without_star
           [mkCompPars 2 "Al*" 0.1 5 13 0.9 0.01 0.02 0.03 0.04]
           [ ("z2_Alx", mkParameter 0.1 (Some 0.01%Q));
             ("b2_Alx", mkParameter 5 (Some 0.02%Q));
             ("logN2_Alx", mkParameter 13 (Some 0.03%Q));
             ("rf2_Alx", mkParameter 0.9 (Some 0.04%Q)) ]).
  - reflexivity.
  - cbn. tauto.
Defined.

(** * Further properties of the array builder *)

Lemma length_zip4_shortest (z b logN rf : list Q) :
  length (zip4 z b logN rf) = shortest z b logN rf.
Proof.
  unfold shortest. revert b logN rf.
  induction z as [| z0 z IH]; intros [| b0 b] [| n0 logN] [| r0 rf];
    cbn [zip4 length]; try reflexivity; try lia.
  rewrite IH. lia.
Qed.

(** The names of the builder carry the fields and the indices of the
    components it was given. *)
Lemma names_entries_from (ion : string) (l : list (Q * Q * Q * Q))
    (start : nat) (x : string) :
  In x (names (flat_map (entries_of ion) (enumerate_from start l))) ->
  exists f k, In f fields /\ (start <= k < start + length l)%nat /\
              x = fmt_name f (Z.of_nat k) ion.
Proof.
  revert start. induction l as [| vals l IH]; intros start;
    cbn [enumerate_from flat_map]; [intros [] |].
  intros Hx. apply names_app in Hx. destruct Hx as [Hx | Hx].
  - apply names_entries_of in Hx. destruct Hx as (f & Hf & ->).
    exists f, start. repeat split; [exact Hf | lia | cbn [length]; lia].
  - destruct (IH (S start) Hx) as (f & k & Hf & Hk & ->).
    exists f, k. repeat split; [exact Hf | lia | cbn [length]; lia].
Qed.

Lemma names_components_from_array (ion : string) (z b logN rf : list Q)
    (x : string) :
  In x (names (components_from_array ion z b logN rf)) ->
  exists f k, In f fields /\ (k < shortest z b logN rf)%nat /\
              x = fmt_name f (Z.of_nat k) ion.
Proof.
  rewrite components_from_array_eq. unfold enumerate. intros Hx.
  apply names_entries_from in Hx. destruct Hx as (f & k & Hf & Hk & ->).
  rewrite length_zip4_shortest in Hk.
  exists f, k. repeat split; [exact Hf | lia].
Qed.

(** Looking up a name that is not there raises [KeyError]. *)
Lemma Parameters_get_absent (name : string) (pars : lmfit_Parameters) :
  ~ In name (names pars) -> Parameters_get name pars = Raise KeyError.
Proof.
  induction pars as [| [n p] rest IH]; cbn [Parameters_get names map fst In];
    [reflexivity |].
  intros Hout. destruct (String.eqb_spec n name) as [-> | Hne].
  - destruct Hout. now left.
  - apply IH. intros Hin. apply Hout. now right.
Qed.

(** The names and values the builder hands to the library stop at the
    shortest of its four sequences. *)
Lemma components_from_array_shortest (ion : string) (z b logN rf : list Q) :
  let pars := components_from_array ion z b logN rf in
  length pars = (4 * shortest z b logN rf)%nat /\
  (forall i, (i < shortest z b logN rf)%nat ->
     exists zi bi ni ri,
       z !! i = Some zi /\ b !! i = Some bi /\
       logN !! i = Some ni /\ rf !! i = Some ri /\
       Parameters_get (fmt_name "z" (Z.of_nat i) ion) pars
         = Ok (mkParameter zi None) /\
       Parameters_get (fmt_name "b" (Z.of_nat i) ion) pars
         = Ok (mkParameter bi None) /\
       Parameters_get (fmt_name "logN" (Z.of_nat i) ion) pars
         = Ok (mkParameter ni None) /\
       Parameters_get (fmt_name "rf" (Z.of_nat i) ion) pars
         = Ok (mkParameter ri None)) /\
  (forall i f, (shortest z b logN rf <= i)%nat -> In f fields ->
     Parameters_get (fmt_name f (Z.of_nat i) ion) pars = Raise KeyError).
Proof.
  cbv zeta. split; [| split].
  - rewrite components_from_array_eq, length_entries.
    unfold enumerate. now rewrite length_enumerate_from, length_zip4_shortest.
  - intros i Hi. unfold shortest in Hi.
    destruct (lookup_lt_is_Some_2 z i) as [zi Hzi]; [lia |].
    destruct (lookup_lt_is_Some_2 b i) as [bi Hbi]; [lia |].
    destruct (lookup_lt_is_Some_2 logN i) as [ni Hni]; [lia |].
    destruct (lookup_lt_is_Some_2 rf i) as [ri Hri]; [lia |].
    exists zi, bi, ni, ri. repeat (split; [assumption |]).
    assert (Hnd : List.NoDup (names (components_from_array ion z b logN rf))).
    { apply fold_add_vals_NoDup. constructor. }
    assert (Hitem : enumerate (zip4 z b logN rf) !! i
                    = Some (i, (zi, bi, ni, ri))).
    { unfold enumerate.
      apply (lookup_enumerate_from _ 0), lookup_zip4; assumption. }
    assert (Hat : forall j,
      (j < 4)%nat ->
      components_from_array ion z b logN rf !! (4 * i + j)%nat
      = entries_of ion (i, (zi, bi, ni, ri)) !! j).
    { intros j Hj. rewrite components_from_array_eq.
      unfold lmfit_Parameters. now apply lookup_entries. }
    repeat split.
    + apply (Parameters_get_lookup _ (4 * i + 0) _ _ Hnd).
      rewrite Hat by lia. reflexivity.
    + apply (Parameters_get_lookup _ (4 * i + 1) _ _ Hnd).
      rewrite Hat by lia. reflexivity.
    + apply (Parameters_get_lookup _ (4 * i + 2) _ _ Hnd).
      rewrite Hat by lia. reflexivity.
    + apply (Parameters_get_lookup _ (4 * i + 3) _ _ Hnd).
      rewrite Hat by lia. reflexivity.
  - intros i f Hi Hf. apply Parameters_get_absent. intros Hin.
    apply names_components_from_array in Hin.
    destruct Hin as (g & k & Hg & Hk & Heq).
    apply fmt_name_inj in Heq; [| assumption | assumption].
    destruct Heq as [_ Heq]. lia.
Qed.

(** X22. The parameter sets the builder makes for two different ion labels
    share no name, so they can be merged without one entry replacing
    another. *)
Theorem builder_names_disjoint (ion1 ion2 : string)
    (z1 b1 logN1 rf1 z2 b2 logN2 rf2 : list Q) (x : string) :
  ion1 <> ion2 ->
  In x (names (components_from_array ion1 z1 b1 logN1 rf1)) ->
  ~ In x (names (components_from_array ion2 z2 b2 logN2 rf2)).
Proof.
  intros Hne H1 H2.
  apply names_components_from_array in H1, H2.
  destruct H1 as (f1 & k1 & Hf1 & _ & ->).
  destruct H2 as (f2 & k2 & Hf2 & _ & Heq).
  apply fmt_name_inj_ion in Heq; [| assumption | assumption].
  now destruct Heq as (_ & _ & Hion).
Qed.

Lemma builder_names_disjoint_witness :
  ~ In "z0_MgII" (names (components_from_array "FeII" [0.1]%Q [5]%Q [13]%Q
                           [0.9]%Q)).
Proof.
  apply (builder_names_disjoint "MgII" "FeII" [0.1]%Q [5]%Q [13]%Q [0.9]%Q).
  - discriminate.
  - vm_compute. tauto.
Defined.

(** The name and the value of each entry, without the standard error. *)
Lemma entries_of_row_values (ion : string) (i : nat) (c : comp_pars) :
  has_char "*" ion = false -> cp_ion c = ion -> cp_num c = Z.of_nat i ->
  map (fun e => (fst e, value (snd e))) (entries_of_row c)
  = map (fun e => (fst e, value (snd e)))
        (entries_of ion (i, (cp_z c, cp_b c, cp_logN c, cp_rf c))).
Proof.
  intros Hstar Hion Hnum. unfold entries_of_row, entries_of.
  rewrite Hion, Hnum, (replace_absent _ _ _ Hstar). reflexivity.
Qed.

(** For an ion label without [*] and components numbered 0, 1, 2, ... the
    second loop of the loader and the builder hand the same names and
    values to the library. *)
Lemma loop_values_match_builder (ion : string) (rows : list comp_pars) :
  has_char "*" ion = false ->
  Forall (fun c => cp_ion c = ion) rows ->
  map cp_num rows = map Z.of_nat (seq 0 (length rows)) ->
  exists pars,
    add_components rows [] = Ok pars /\
    map (fun e => (fst e, value (snd e))) pars
    = map (fun e => (fst e, value (snd e)))
          (components_from_array ion (map cp_z rows) (map cp_b rows)
             (map cp_logN rows) (map cp_rf rows)).
Proof.
  intros Hstar Hion Hnum.
  exists (flat_map entries_of_row rows). split.
  - rewrite add_components_fresh; [reflexivity | | intros x c []].
    apply (NoDup_map_inv fst). rewrite map_map.
    change (map (fun c => fst (row_key c)) rows) with (map cp_num rows).
    rewrite Hnum. apply Finite.Injective_map_NoDup; [| apply seq_NoDup].
    intros a a' H. now apply Nat2Z.inj.
  - rewrite components_from_array_eq. unfold enumerate.
    revert Hion Hnum. generalize 0%nat.
    induction rows as [| c rows IH]; intros start Hion Hnum; [reflexivity |].
    cbn [map zip4 enumerate_from flat_map length seq] in *.
    inversion Hion as [| ? ? Hc Hrest]; subst.
    injection Hnum as Hc Hnum.
    rewrite !map_app. f_equal.
    + now apply entries_of_row_values.
    + now apply IH.
Qed.

(** * The last assignment to an attribute *)

Lemma mutate_all_app (self : Component) (ms1 ms2 : list mutation) :
  mutate_all self (ms1 ++ ms2)%list = mutate_all (mutate_all self ms1) ms2.
Proof. unfold mutate_all. apply fold_left_app. Qed.

(** Whatever its sign, the value assigned to [b] is stored as its absolute
    value. *)
Lemma set_b_stores_Qabs (self : Component) (val : Q) :
  Component_b (fst (set_b self val)) = Qabs val.
Proof.
  unfold set_b. destruct (py_lt val 0) eqn:E; [reflexivity |].
  apply py_lt_false in E. destruct val as [n d]. unfold Qle in E.
  cbn in E |- *. f_equal. symmetry. apply Z.abs_eq. lia.
Qed.

(** Writes that do not assign to an attribute leave it as it is. *)
Lemma mutate_all_keeps (ms : list mutation) :
  forall self : Component,
    ((forall v, ~ In (SetZ v) ms) ->
       Component_z (mutate_all self ms) = Component_z self) /\
    ((forall v, ~ In (SetB v) ms) ->
       Component_b (mutate_all self ms) = Component_b self) /\
    ((forall v, ~ In (SetLogN v) ms) ->
       Component_logN (mutate_all self ms) = Component_logN self) /\
    ((forall v, ~ In (SetRf v) ms) ->
       Component_rf (mutate_all self ms) = Component_rf self).
Proof.
  induction ms as [| m ms IH]; intros self; [repeat split |].
  rewrite mutate_all_cons.
  destruct (IH (mutate self m)) as (Hz & Hb & Hn & Hr).
  repeat split; intros Hout.
  - rewrite Hz by (intros v Hv; apply (Hout v); now right).
    destruct m; cbn [mutate]; try reflexivity.
    + destruct (Hout val). now left.
    + unfold set_b. destruct (py_lt val 0); reflexivity.
    + unfold set_rf, py_gt.
      destruct (py_lt val 0), (py_lt 1 val); reflexivity.
  - rewrite Hb by (intros v Hv; apply (Hout v); now right).
    apply mutate_keeps_b. intros v ->. destruct (Hout v). now left.
  - rewrite Hn by (intros v Hv; apply (Hout v); now right).
    destruct m; cbn [mutate]; try reflexivity.
    + unfold set_b. destruct (py_lt val 0); reflexivity.
    + destruct (Hout val). now left.
    + unfold set_rf, py_gt.
      destruct (py_lt val 0), (py_lt 1 val); reflexivity.
  - rewrite Hr by (intros v Hv; apply (Hout v); now right).
    destruct m; cbn [mutate]; try reflexivity.
    + unfold set_b. destruct (py_lt val 0); reflexivity.
    + destruct (Hout val). now left.
Qed.

(** X24. [get_pars] lists [z], [b], [logN] and [rf] in this order, each as
    its last assignment left it, whatever was written before it and
    whatever is written to the other attributes and to the options after
    it: [z] and [logN] are the values assigned, [b] is the absolute value
    of the value assigned, and [rf] is the value assigned when that lies
    in [[0,1]]. *)
Theorem get_pars_last_assignment (self : Component)
    (before after : list mutation) (val : Q) :
  ((forall v, ~ In (SetZ v) after) ->
     get_pars (mutate_all self (before ++ SetZ val :: after)) !! 0%nat
     = Some val) /\
  ((forall v, ~ In (SetB v) after) ->
     get_pars (mutate_all self (before ++ SetB val :: after)) !! 1%nat
     = Some (Qabs val)) /\
  ((forall v, ~ In (SetLogN v) after) ->
     get_pars (mutate_all self (before ++ SetLogN val :: after)) !! 2%nat
     = Some val) /\
  ((forall v, ~ In (SetRf v) after) -> (0 <= val)%Q -> (val <= 1)%Q ->
     get_pars (mutate_all self (before ++ SetRf val :: after)) !! 3%nat
     = Some val).
Proof.
  repeat split; intros Hafter; rewrite mutate_all_app, mutate_all_cons;
    unfold get_pars; cbn [lookup list_lookup]; f_equal.
  - now rewrite (proj1 (mutate_all_keeps after _) Hafter).
  - rewrite (proj1 (proj2 (mutate_all_keeps after _)) Hafter).
    apply set_b_stores_Qabs.
  - now rewrite (proj1 (proj2 (proj2 (mutate_all_keeps after _))) Hafter).
  - intros H0 H1. f_equal.
    rewrite (proj2 (proj2 (proj2 (mutate_all_keeps after _))) Hafter).
    apply py_lt_false in H0, H1.
    cbn [mutate]. unfold set_rf, py_gt. now rewrite H0, H1.
Qed.

Lemma get_pars_last_assignment_witness :
  get_pars
    (mutate_all (Component_new 0 1 13 1)
       [SetB 4; SetB (-7); SetZ 2; SetOption "var_b" (PyBool false)])
    !! 1%nat
  = Some (Qabs (-7)).
Proof.
  apply (get_pars_last_assignment (Component_new 0 1 13 1) [SetB 4]
           [SetZ 2; SetOption "var_b" (PyBool false)] (-7)).
  intros v [H | [H | []]]; discriminate H.
Defined.

(** * The invariant on every float *)

(** On rationals the setters of [Floats] are the setters above. *)
Lemma setters_agree_on_rationals (self : Component) (val : Q)
    (key : string) (value : option_value) :
  Floats.set_z (to_floats self) (Floats.Fin val)
    = (to_floats (fst (set_z self val)), snd (set_z self val)) /\
  Floats.set_b (to_floats self) (Floats.Fin val)
    = (to_floats (fst (set_b self val)), snd (set_b self val)) /\
  Floats.set_logN (to_floats self) (Floats.Fin val)
    = (to_floats (fst (set_logN self val)), snd (set_logN self val)) /\
  Floats.set_rf (to_floats self) (Floats.Fin val)
    = (to_floats (fst (set_rf self val)), snd (set_rf self val)) /\
  Floats.set_option (to_floats self) key value
    = to_floats (set_option self key value).
Proof.
  unfold Floats.set_b, Floats.set_rf, set_b, set_rf, Floats.gt, py_gt.
  cbn [Floats.lt].
  repeat split; destruct (py_lt val 0), (py_lt 1 val); reflexivity.
Qed.

Lemma float_le_abs (val : Floats.num) :
  val <> Floats.NaN -> Floats.le (Floats.Fin 0) (Floats.abs val) = true.
Proof.
  destruct val as [q | | |]; intros Hnan; try reflexivity.
  - cbn. apply negb_true_iff, py_lt_false, Qabs_nonneg.
  - now destruct Hnan.
Qed.

Lemma float_le_of_not_lt (x y : Floats.num) :
  x <> Floats.NaN -> y <> Floats.NaN ->
  Floats.lt x y = false -> Floats.le y x = true.
Proof.
  intros Hx Hy Hlt.
  destruct x, y; try (now destruct Hx); try (now destruct Hy);
    cbn [Floats.le]; now rewrite Hlt.
Qed.

(** An assignment of a number to [b] leaves [b >= 0]. *)
Lemma float_set_b_nonneg (self : Floats.Component) (val : Floats.num) :
  val <> Floats.NaN ->
  Floats.le (Floats.Fin 0) (Floats._b (fst (Floats.set_b self val))) = true.
Proof.
  intros Hnan. unfold Floats.set_b.
  destruct (Floats.lt val (Floats.Fin 0)) eqn:E; cbn [fst Floats._b].
  - now apply float_le_abs.
  - now apply float_le_of_not_lt.
Qed.

(** An assignment of a number to [rf] leaves [0 <= rf <= 1]. *)
Lemma float_set_rf_range (self : Floats.Component) (val : Floats.num) :
  val <> Floats.NaN ->
  Floats.le (Floats.Fin 0) (Floats._rf (fst (Floats.set_rf self val))) = true
  /\ Floats.le (Floats._rf (fst (Floats.set_rf self val))) (Floats.Fin 1)
     = true.
Proof.
  intros Hnan. unfold Floats.set_rf, Floats.gt.
  destruct (Floats.lt val (Floats.Fin 0)) eqn:E0,
           (Floats.lt (Floats.Fin 1) val) eqn:E1;
    cbn [orb fst Floats._rf]; try (split; reflexivity).
  split; now apply float_le_of_not_lt.
Qed.

Lemma float_mutate_all_cons (self : Floats.Component) (m : Floats.mutation)
    (ms : list Floats.mutation) :
  Floats.mutate_all self (m :: ms)
  = Floats.mutate_all (Floats.mutate self m) ms.
Proof. reflexivity. Qed.

(** Each half of the invariant is kept by the writes that assign no NaN
    to its attribute. *)
Lemma float_mutate_all_keeps (ms : list Floats.mutation) :
  forall self : Floats.Component,
    existsb Floats.assigns_nan ms = false ->
    (Floats.le (Floats.Fin 0) (Floats._b self) = true ->
     Floats.le (Floats.Fin 0) (Floats._b (Floats.mutate_all self ms)) = true)
    /\
    (Floats.le (Floats.Fin 0) (Floats._rf self) = true /\
     Floats.le (Floats._rf self) (Floats.Fin 1) = true ->
     Floats.le (Floats.Fin 0) (Floats._rf (Floats.mutate_all self ms)) = true
     /\ Floats.le (Floats._rf (Floats.mutate_all self ms)) (Floats.Fin 1)
        = true).
Proof.
  induction ms as [| m ms IH]; intros self Hms; [now split |].
  cbn [existsb] in Hms. apply orb_false_iff in Hms. destruct Hms as [Hm Hms].
  rewrite float_mutate_all_cons. destruct (IH (Floats.mutate self m) Hms)
    as [IHb IHrf].
  split; intros H.
  - apply IHb.
    destruct m as [v | v | v | v | k v]; cbn [Floats.mutate]; try exact H.
    + apply float_set_b_nonneg. intros ->. discriminate Hm.
    + unfold Floats.set_rf, Floats.gt.
      destruct (Floats.lt v (Floats.Fin 0)), (Floats.lt (Floats.Fin 1) v);
        exact H.
  - apply IHrf.
    destruct m as [v | v | v | v | k v]; cbn [Floats.mutate]; try exact H.
    + unfold Floats.set_b. destruct (Floats.lt v (Floats.Fin 0)); exact H.
    + apply float_set_rf_range. intros ->. discriminate Hm.
Qed.

(** X1. On every float, NaN and the infinities included: a Component for
    which [b >= 0] and [0 <= rf <= 1] are true keeps both through any
    sequence of assignments and calls of [set_option] that assigns NaN
    neither to [b] nor to [rf]. An assignment of NaN to [b] or to [rf] is
    stored as it is, without a warning, and the invariant is false after
    it. *)
Theorem float_mutations_keep_physical (self : Floats.Component)
    (ms : list Floats.mutation) :
  (Floats.physical self -> existsb Floats.assigns_nan ms = false ->
   Floats.physical (Floats.mutate_all self ms)) /\
  Floats.set_b self Floats.NaN
    = (Floats.mkComponent (Floats._z self) Floats.NaN (Floats._logN self)
         (Floats._rf self) (Floats.options self), []) /\
  Floats.set_rf self Floats.NaN
    = (Floats.mkComponent (Floats._z self) (Floats._b self)
         (Floats._logN self) Floats.NaN (Floats.options self), []) /\
  ~ Floats.physical (Floats.mutate self (Floats.SetB Floats.NaN)) /\
  ~ Floats.physical (Floats.mutate self (Floats.SetRf Floats.NaN)).
Proof.
  split; [| repeat split].
  - intros (Hb & Hrf) Hms.
    destruct (float_mutate_all_keeps ms self Hms) as [Kb Krf].
    split; [now apply Kb | now apply Krf].
  - intros (Hb & _). discriminate Hb.
  - intros (_ & Hrf & _). discriminate Hrf.
Qed.

Lemma float_mutations_keep_physical_witness :
  Floats.physical
    (Floats.mutate_all
       (Floats.mkComponent (Floats.Fin 0) (Floats.Fin 1) (Floats.Fin 13)
          (Floats.Fin 1) ∅)
       [Floats.SetB Floats.NegInf; Floats.SetRf Floats.PosInf;
        Floats.SetZ Floats.NaN; Floats.SetB (Floats.Fin (-3))]).
Proof.
  apply float_mutations_keep_physical.
  - repeat split.
  - reflexivity.
Defined.

(** X2. On every float: whatever the Component holds, after a sequence of
    writes that contains an assignment to [b] and an assignment to [rf]
    and assigns NaN to neither, [b >= 0] and [0 <= rf <= 1] are true. *)
Theorem float_assignments_restore_physical (self : Floats.Component)
    (ms : list Floats.mutation) (vb vrf : Floats.num) :
  In (Floats.SetB vb) ms -> In (Floats.SetRf vrf) ms ->
  existsb Floats.assigns_nan ms = false ->
  Floats.physical (Floats.mutate_all self ms).
Proof.
  intros Hb Hrf Hms. split.
  - clear Hrf. revert self Hb Hms.
    induction ms as [| m ms IH]; intros self Hin Hms; [destruct Hin |].
    cbn [existsb] in Hms. apply orb_false_iff in Hms.
    destruct Hms as [Hm Hms].
    rewrite float_mutate_all_cons. destruct Hin as [-> | Hin].
    + apply (float_mutate_all_keeps ms _ Hms).
      apply float_set_b_nonneg. intros ->. discriminate Hm.
    + now apply IH.
  - clear Hb. revert self Hrf Hms.
    induction ms as [| m ms IH]; intros self Hin Hms; [destruct Hin |].
    cbn [existsb] in Hms. apply orb_false_iff in Hms.
    destruct Hms as [Hm Hms].
    rewrite float_mutate_all_cons. destruct Hin as [-> | Hin].
    + apply (float_mutate_all_keeps ms _ Hms).
      apply float_set_rf_range. intros ->. discriminate Hm.
    + now apply IH.
Qed.

Lemma float_assignments_restore_physical_witness :
  ~ Floats.physical
      (Floats.mkComponent (Floats.Fin 0) (Floats.Fin (-5)) (Floats.Fin 13)
         Floats.NaN ∅) /\
  Floats.physical
    (Floats.mutate_all
       (Floats.mkComponent (Floats.Fin 0) (Floats.Fin (-5)) (Floats.Fin 13)
          Floats.NaN ∅)
       [Floats.SetRf (Floats.Fin 2); Floats.SetLogN Floats.NaN;
        Floats.SetB Floats.NegInf]).
Proof.
  split; [intros (Hb & _); discriminate Hb |].
  apply (float_assignments_restore_physical _ _ Floats.NegInf (Floats.Fin 2)).
  - cbn. tauto.
  - cbn. tauto.
  - reflexivity.
Defined.

(** * The errors of the loader on a file that was read *)

(** X14. For a file that has been opened and decoded, the loader raises
    only [ValueError] and [IndexError], and only when the file holds a
    data line of 8 tokens: once the lines are read, no [OSError] and no
    [KeyError] can come. *)
Theorem loader_errors_after_reading
    (py_int : string -> option Z) (py_float : string -> option Q)
    (fs : gmap string string) (fname text : string) (e : exn) :
  fs !! fname = Some text ->
  load_components_from_file py_int py_float fs fname = Raise e ->
  (e = ValueError \/ e = IndexError) /\
  exists l, In l (readlines text) /\ taken_line l = true.
Proof.
  intros Hfile. unfold load_components_from_file. rewrite Hfile.
  intros Hload.
  destruct (first_taken_line (readlines text))
    as [H | (before & line & after & Heq & Hbefore & Hline)].
  - rewrite (read_lines_none_taken _ _ _ _ H) in Hload. discriminate Hload.
  - assert (Hin : In line (readlines text)).
    { rewrite Heq. apply in_or_app. right. now left. }
    rewrite Heq in Hload.
    destruct (read_line_taken py_int py_float [] line Hline) as [He | He];
      rewrite (read_lines_first_taken py_int py_float before after line []
                 _ Hbefore He) in Hload;
      injection Hload as <-; (split; [tauto | now exists line]).
Qed.

Lemma loader_errors_after_reading_witness :
  fit_file eight_token_line !! "dataset.fit"
    = Some (fit_text eight_token_line) /\
  load_components_from_file decimal_int decimal_float
    (fit_file eight_token_line) "dataset.fit" = Raise IndexError /\
  exists l, In l (readlines (fit_text eight_token_line)) /\
            taken_line l = true.
Proof.
  assert (Hfile : fit_file eight_token_line !! "dataset.fit"
                  = Some (fit_text eight_token_line)) by reflexivity.
  assert (Hload : load_components_from_file decimal_int decimal_float
                    (fit_file eight_token_line) "dataset.fit"
                  = Raise IndexError) by (vm_compute; reflexivity).
  split; [exact Hfile |]. split; [exact Hload |].
  exact (proj2 (loader_errors_after_reading decimal_int decimal_float
                  (fit_file eight_token_line) "dataset.fit"
                  (fit_text eight_token_line) IndexError Hfile Hload)).
Defined.

(** * The name check of the library *)

Section NameCheckFacts.

Variable valid_symbol_name : string -> bool.

Lemma Parameters_contains_In (name : string) (pars : lmfit_Parameters) :
  Parameters_contains name pars = true <-> In name (names pars).
Proof.
  unfold Parameters_contains. rewrite existsb_exists. split.
  - intros (x & Hx & Heq). apply String.eqb_eq in Heq. now subst x.
  - intros Hin. exists name. split; [exact Hin | apply String.eqb_refl].
Qed.

(** A valid name is added as the dictionary update adds it. *)
Lemma add_checked_valid (name : string) (v : Q) (pars : lmfit_Parameters) :
  valid_symbol_name name = true ->
  Parameters_add_checked valid_symbol_name name v pars
  = Ok (Parameters_add name v pars).
Proof.
  intros Hvalid. unfold Parameters_add_checked.
  now rewrite Hvalid, andb_false_r.
Qed.

(** A new name that is not valid is refused. *)
Lemma add_checked_invalid (name : string) (v : Q) (pars : lmfit_Parameters) :
  ~ In name (names pars) -> valid_symbol_name name = false ->
  Parameters_add_checked valid_symbol_name name v pars = Raise KeyError.
Proof.
  intros Hfresh Hinvalid. unfold Parameters_add_checked.
  destruct (Parameters_contains name pars) eqn:Hc.
  - apply Parameters_contains_In in Hc. now destruct Hfresh.
  - now rewrite Hinvalid.
Qed.

Lemma add_checked_cases (name : string) (v : Q) (pars : lmfit_Parameters) :
  Parameters_add_checked valid_symbol_name name v pars
    = Ok (Parameters_add name v pars) \/
  (Parameters_add_checked valid_symbol_name name v pars = Raise KeyError /\
   valid_symbol_name name = false).
Proof.
  unfold Parameters_add_checked.
  destruct (Parameters_contains name pars), (valid_symbol_name name);
    cbn [negb andb]; tauto.
Qed.

(** Four calls of [pars.add] in a row, and what follows them. *)
Lemma four_checked_adds_valid (n1 n2 n3 n4 : string) (v1 v2 v3 v4 : Q)
    (pars : lmfit_Parameters)
    (k : lmfit_Parameters -> result lmfit_Parameters) :
  forallb valid_symbol_name [n1; n2; n3; n4] = true ->
  (let* p := Parameters_add_checked valid_symbol_name n1 v1 pars in
   let* p := Parameters_add_checked valid_symbol_name n2 v2 p in
   let* p := Parameters_add_checked valid_symbol_name n3 v3 p in
   let* p := Parameters_add_checked valid_symbol_name n4 v4 p in
   k p)
  = k (Parameters_add n4 v4 (Parameters_add n3 v3
         (Parameters_add n2 v2 (Parameters_add n1 v1 pars)))).
Proof.
  cbn [forallb]. rewrite !andb_true_iff. intros (H1 & H2 & H3 & H4 & _).
  rewrite (add_checked_valid n1) by exact H1. cbn [bind].
  rewrite (add_checked_valid n2) by exact H2. cbn [bind].
  rewrite (add_checked_valid n3) by exact H3. cbn [bind].
  rewrite (add_checked_valid n4) by exact H4. reflexivity.
Qed.

Lemma four_checked_adds_invalid (n1 n2 n3 n4 : string) (v1 v2 v3 v4 : Q)
    (pars : lmfit_Parameters)
    (k : lmfit_Parameters -> result lmfit_Parameters) :
  List.NoDup [n1; n2; n3; n4] ->
  (forall n, In n [n1; n2; n3; n4] -> ~ In n (names pars)) ->
  forallb valid_symbol_name [n1; n2; n3; n4] = false ->
  (let* p := Parameters_add_checked valid_symbol_name n1 v1 pars in
   let* p := Parameters_add_checked valid_symbol_name n2 v2 p in
   let* p := Parameters_add_checked valid_symbol_name n3 v3 p in
   let* p := Parameters_add_checked valid_symbol_name n4 v4 p in
   k p)
  = Raise KeyError.
Proof.
  intros Hnd Hfresh Hinvalid.
  assert (H12 : n1 <> n2 /\ n1 <> n3 /\ n1 <> n4 /\ n2 <> n3 /\ n2 <> n4
                /\ n3 <> n4).
  { inversion Hnd as [| ? ? Hn1 Hnd1]; subst.
    inversion Hnd1 as [| ? ? Hn2 Hnd2]; subst.
    inversion Hnd2 as [| ? ? Hn3 _]; subst.
    cbn [In] in Hn1, Hn2, Hn3. repeat split; intros ->; tauto. }
  destruct H12 as (H12 & H13 & H14 & H23 & H24 & H34).
  assert (F1 : ~ In n1 (names pars)) by (apply Hfresh; cbn; tauto).
  assert (F2 : ~ In n2 (names pars)) by (apply Hfresh; cbn; tauto).
  assert (F3 : ~ In n3 (names pars)) by (apply Hfresh; cbn; tauto).
  assert (F4 : ~ In n4 (names pars)) by (apply Hfresh; cbn; tauto).
  cbn [forallb] in Hinvalid.
  destruct (valid_symbol_name n1) eqn:V1.
  2:{ now rewrite (add_checked_invalid n1) by assumption. }
  rewrite (add_checked_valid n1) by exact V1. cbn [bind].
  destruct (valid_symbol_name n2) eqn:V2.
  2:{ rewrite (add_checked_invalid n2); [reflexivity | | exact V2].
      rewrite names_add_iff. intros [H | H]; [now apply H12 | tauto]. }
  rewrite (add_checked_valid n2) by exact V2. cbn [bind].
  destruct (valid_symbol_name n3) eqn:V3.
  2:{ rewrite (add_checked_invalid n3); [reflexivity | | exact V3].
      rewrite !names_add_iff.
      intros [H | [H | H]]; [now apply H23 | now apply H13 | tauto]. }
  rewrite (add_checked_valid n3) by exact V3. cbn [bind].
  destruct (valid_symbol_name n4) eqn:V4; [discriminate Hinvalid |].
  rewrite (add_checked_invalid n4); [reflexivity | | exact V4].
  rewrite !names_add_iff.
  intros [H | [H | [H | H]]];
    [now apply H34 | now apply H24 | now apply H14 | tauto].
Qed.

Lemma four_checked_adds_cases (n1 n2 n3 n4 : string) (v1 v2 v3 v4 : Q)
    (pars : lmfit_Parameters)
    (k : lmfit_Parameters -> result lmfit_Parameters) :
  let run :=
    let* p := Parameters_add_checked valid_symbol_name n1 v1 pars in
    let* p := Parameters_add_checked valid_symbol_name n2 v2 p in
    let* p := Parameters_add_checked valid_symbol_name n3 v3 p in
    let* p := Parameters_add_checked valid_symbol_name n4 v4 p in
    k p in
  run = k (Parameters_add n4 v4 (Parameters_add n3 v3
             (Parameters_add n2 v2 (Parameters_add n1 v1 pars)))) \/
  (run = Raise KeyError /\
   forallb valid_symbol_name [n1; n2; n3; n4] = false).
Proof.
  cbv zeta. cbn [forallb].
  destruct (add_checked_cases n1 v1 pars) as [-> | [-> ->]];
    [cbn [bind] | right; now split].
  destruct (add_checked_cases n2 v2 (Parameters_add n1 v1 pars))
    as [-> | [-> ->]];
    [cbn [bind] | right; split; [reflexivity | apply andb_false_r]].
  destruct (add_checked_cases n3 v3
              (Parameters_add n2 v2 (Parameters_add n1 v1 pars)))
    as [-> | [-> ->]];
    [cbn [bind] | right; split; [reflexivity | now rewrite !andb_false_r]].
  destruct (add_checked_cases n4 v4
              (Parameters_add n3 v3
                 (Parameters_add n2 v2 (Parameters_add n1 v1 pars))))
    as [-> | [-> ->]];
    [left; reflexivity
    | right; split; [reflexivity | now rewrite !andb_false_r]].
Qed.

Lemma names_app_eq (p1 p2 : lmfit_Parameters) :
  names (p1 ++ p2)%list = (names p1 ++ names p2)%list.
Proof. unfold names. apply map_app. Qed.

(** One round of the builder on names that are all new. *)
Lemma add_vals_checked_fresh (ion : string) (pars : lmfit_Parameters)
    (num : nat) (vals : Q * Q * Q * Q) :
  (forall f, In f fields ->
     ~ In (fmt_name f (Z.of_nat num) ion) (names pars)) ->
  add_vals_checked valid_symbol_name ion pars (num, vals)
  = if forallb valid_symbol_name (names (entries_of ion (num, vals)))
    then Ok (pars ++ entries_of ion (num, vals))%list
    else Raise KeyError.
Proof.
  intros Hfresh. rewrite <- (add_vals_fresh ion pars num vals Hfresh).
  destruct vals as [[[v0 v1] v2] v3].
  unfold add_vals_checked, add_vals, entries_of. cbv zeta.
  cbn [names map fst].
  destruct (forallb valid_symbol_name _) eqn:Hvalid.
  - now rewrite (four_checked_adds_valid _ _ _ _ _ _ _ _ pars Ok Hvalid).
  - apply (four_checked_adds_invalid _ _ _ _ _ _ _ _ pars Ok);
      [apply row_names_NoDup | | exact Hvalid].
    intros n Hn. cbn [In] in Hn.
    destruct Hn as [<- | [<- | [<- | [<- | []]]]];
      apply Hfresh, in_fields; tauto.
Qed.

Lemma add_all_vals_from (ion : string) (l : list (Q * Q * Q * Q)) :
  forall (start : nat) (pars : lmfit_Parameters),
    (forall x, In x (names pars) ->
       exists f k, In f fields /\ (k < start)%nat /\
                   x = fmt_name f (Z.of_nat k) ion) ->
    add_all_vals valid_symbol_name ion (enumerate_from start l) pars
    = if forallb valid_symbol_name
           (names (flat_map (entries_of ion) (enumerate_from start l)))
      then Ok (pars ++ flat_map (entries_of ion) (enumerate_from start l))%list
      else Raise KeyError.
Proof.
  induction l as [| vals l IH]; intros start pars Hbelow;
    cbn [add_all_vals enumerate_from flat_map].
  - cbn. now rewrite app_nil_r.
  - rewrite add_vals_checked_fresh.
    + rewrite names_app_eq, forallb_app.
      destruct (forallb valid_symbol_name
                  (names (entries_of ion (start, vals)))); cbn [bind andb];
        [| reflexivity].
      rewrite IH; [now rewrite <- app_assoc |].
      intros x Hx. apply names_app in Hx. destruct Hx as [Hx | Hx].
      * destruct (Hbelow x Hx) as (f & k & Hf & Hk & ->).
        exists f, k. repeat split; [assumption | lia].
      * apply names_entries_of in Hx. destruct Hx as (f & Hf & ->).
        exists f, start. repeat split; [assumption | lia].
    + intros f Hf Hin.
      destruct (Hbelow _ Hin) as (g & k & Hg & Hk & Heq).
      apply fmt_name_inj in Heq; [| assumption | assumption].
      destruct Heq as [_ Heq]. lia.
Qed.

(** The call of the builder returns what it hands to the library when all
    its names are valid, and raises [KeyError] when one is not. *)
Lemma components_from_array_checked_eq (ion : string) (z b logN rf : list Q) :
  components_from_array_checked valid_symbol_name ion z b logN rf
  = if forallb valid_symbol_name
         (names (components_from_array ion z b logN rf))
    then Ok (components_from_array ion z b logN rf)
    else Raise KeyError.
Proof.
  unfold components_from_array_checked, enumerate.
  rewrite add_all_vals_from by (intros x []).
  now rewrite components_from_array_eq.
Qed.

(** One round of the second loop of the loader on names that are all
    new. *)
Lemma add_component_checked_fresh (pars : lmfit_Parameters) (c : comp_pars) :
  (forall f, In f fields ->
     ~ In (fmt_name f (cp_num c) (replace "*" "x" (cp_ion c))) (names pars)) ->
  add_component_checked valid_symbol_name pars c
  = if forallb valid_symbol_name (names (entries_of_row c))
    then Ok (pars ++ entries_of_row c)%list
    else Raise KeyError.
Proof.
  intros Hfresh. rewrite <- (add_component_fresh pars c Hfresh).
  unfold add_component_checked, add_component, entries_of_row. cbv zeta.
  cbn [names map fst].
  destruct (forallb valid_symbol_name _) eqn:Hvalid.
  - now rewrite (four_checked_adds_valid _ _ _ _ _ _ _ _ pars _ Hvalid).
  - apply (four_checked_adds_invalid _ _ _ _ _ _ _ _ pars);
      [apply row_names_NoDup | | exact Hvalid].
    intros n Hn. cbn [In] in Hn.
    destruct Hn as [<- | [<- | [<- | [<- | []]]]];
      apply Hfresh, in_fields; tauto.
Qed.

Lemma add_components_checked_fresh (rows : list comp_pars) :
  forall pars : lmfit_Parameters,
    List.NoDup (map row_key rows) ->
    (forall x c, In x (names pars) -> In c rows ->
       forall f, In f fields ->
         x <> fmt_name f (cp_num c) (replace "*" "x" (cp_ion c))) ->
    add_components_checked valid_symbol_name rows pars
    = if forallb valid_symbol_name (names (flat_map entries_of_row rows))
      then Ok (pars ++ flat_map entries_of_row rows)%list
      else Raise KeyError.
Proof.
  induction rows as [| c rows IH]; intros pars Hnd Hfresh;
    cbn [add_components_checked flat_map map].
  - cbn. now rewrite app_nil_r.
  - cbn [map] in Hnd. inversion Hnd as [| ? ? Hkey Hrest]; subst.
    rewrite add_component_checked_fresh.
    + rewrite names_app_eq, forallb_app.
      destruct (forallb valid_symbol_name (names (entries_of_row c)));
        cbn [bind andb]; [| reflexivity].
      rewrite IH; [now rewrite <- app_assoc | exact Hrest |].
      intros x c' Hx Hc' f Hf Heq. apply names_app in Hx.
      destruct Hx as [Hx | Hx].
      * apply (Hfresh x c' Hx (or_intror Hc') f Hf Heq).
      * apply names_entries_of_row in Hx. destruct Hx as (g & Hg & ->).
        apply fmt_name_inj_ion in Heq; [| assumption | assumption].
        destruct Heq as (_ & Hnum & Hion). apply Hkey.
        apply in_map_iff. exists c'. split; [| exact Hc'].
        unfold row_key. now rewrite Hnum, Hion.
    + intros f Hf Hin.
      exact (Hfresh _ c Hin (or_introl eq_refl) f Hf eq_refl).
Qed.

(** One round of the second loop on any parameter set: it does what the
    dictionary updates do, or [pars.add] has refused a name. *)
Lemma add_component_checked_cases (pars : lmfit_Parameters) (c : comp_pars) :
  add_component_checked valid_symbol_name pars c = add_component pars c \/
  (add_component_checked valid_symbol_name pars c = Raise KeyError /\
   forallb valid_symbol_name (names (entries_of_row c)) = false).
Proof.
  unfold add_component_checked, add_component, entries_of_row. cbv zeta.
  cbn [names map fst].
  set (ion := replace "*" "x" (cp_ion c)).
  exact (four_checked_adds_cases _ _ _ _
           (cp_z c) (cp_b c) (cp_logN c) (cp_rf c) pars
           (fun p =>
              let* p := Parameters_set_stderr (fmt_name "z" (cp_num c) ion)
                          (cp_z_err c) p in
              let* p := Parameters_set_stderr (fmt_name "b" (cp_num c) ion)
                          (cp_b_err c) p in
              let* p := Parameters_set_stderr (fmt_name "logN" (cp_num c) ion)
                          (cp_logN_err c) p in
              let* p := Parameters_set_stderr (fmt_name "rf" (cp_num c) ion)
                          (cp_rf_err c) p in
              Ok p)).
Qed.

Lemma names_entries_from_eq (ion : string) (l : list (Q * Q * Q * Q))
    (start : nat) :
  names (flat_map (entries_of ion) (enumerate_from start l))
  = flat_map (fun num => map (fun field => fmt_name field (Z.of_nat num) ion)
                             fields)
             (seq start (length l)).
Proof.
  revert start. induction l as [| [[[v0 v1] v2] v3] l IH]; intros start;
    cbn [enumerate_from flat_map length seq]; [reflexivity |].
  rewrite names_app_eq, IH. reflexivity.
Qed.

Lemma names_components_from_array_eq (ion : string) (z b logN rf : list Q) :
  names (components_from_array ion z b logN rf)
  = generated_names ion (shortest z b logN rf).
Proof.
  rewrite components_from_array_eq. unfold enumerate, generated_names.
  now rewrite names_entries_from_eq, length_zip4_shortest.
Qed.

Lemma names_rows_eq (rows : list comp_pars) :
  names (flat_map entries_of_row rows) = row_names rows.
Proof.
  unfold row_names. induction rows as [| c rows IH]; cbn [flat_map];
    [reflexivity |].
  rewrite names_app_eq, IH. reflexivity.
Qed.

Lemma shortest_equal (z b logN rf : list Q) (N : nat) :
  length z = N -> length b = N -> length logN = N -> length rf = N ->
  shortest z b logN rf = N.
Proof. unfold shortest. lia. Qed.

(** C8, amended. For four sequences of length [N] and an ion label that
    has no [*] and makes valid names only, the builder returns [4 * N]
    entries under distinct names, which are the names of the grammar:
    component [i] gives, in this order, [z<i>_<ion>], [b<i>_<ion>],
    [logN<i>_<ion>] and [rf<i>_<ion>] with the [i]-th value of each
    sequence and no standard error. For ["MgII"] with two components
    these are the eight entries of the example. *)
Theorem components_from_array_valid_names (ion : string)
    (z b logN rf : list Q) (N : nat) :
  length z = N -> length b = N -> length logN = N -> length rf = N ->
  has_char "*" ion = false ->
  forallb valid_symbol_name (generated_names ion N) = true ->
  (exists pars,
     components_from_array_checked valid_symbol_name ion z b logN rf
       = Ok pars /\
     length pars = (4 * N)%nat /\
     List.NoDup (names pars) /\
     names pars = generated_names (replace "*" "x" ion) N /\
     forall i zi bi ni ri,
       z !! i = Some zi -> b !! i = Some bi ->
       logN !! i = Some ni -> rf !! i = Some ri ->
       let num := Z.of_nat i in
       let label := replace "*" "x" ion in
       pars !! (4 * i)%nat
         = Some (fmt_name "z" num label, mkParameter zi None) /\
       pars !! (4 * i + 1)%nat
         = Some (fmt_name "b" num label, mkParameter bi None) /\
       pars !! (4 * i + 2)%nat
         = Some (fmt_name "logN" num label, mkParameter ni None) /\
       pars !! (4 * i + 3)%nat
         = Some (fmt_name "rf" num label, mkParameter ri None) /\
       Parameters_get (fmt_name "z" num label) pars
         = Ok (mkParameter zi None) /\
       Parameters_get (fmt_name "b" num label) pars
         = Ok (mkParameter bi None) /\
       Parameters_get (fmt_name "logN" num label) pars
         = Ok (mkParameter ni None) /\
       Parameters_get (fmt_name "rf" num label) pars
         = Ok (mkParameter ri None)) /\
  components_from_array_checked identifier "MgII"
    [0.1; 0.2]%Q [5; 10]%Q [13; 14]%Q [0.9; 1.0]%Q
  = Ok [ ("z0_MgII", mkParameter 0.1 None); ("b0_MgII", mkParameter 5 None);
         ("logN0_MgII", mkParameter 13 None);
         ("rf0_MgII", mkParameter 0.9 None);
         ("z1_MgII", mkParameter 0.2 None); ("b1_MgII", mkParameter 10 None);
         ("logN1_MgII", mkParameter 14 None);
         ("rf1_MgII", mkParameter 1.0 None) ].
Proof.
  intros Hz Hb Hn Hr Hstar Hvalid. split; [| vm_compute; reflexivity].
  exists (components_from_array ion z b logN rf).
  rewrite (replace_absent _ _ _ Hstar).
  destruct (components_from_array_positions ion z b logN rf N Hz Hb Hn Hr)
    as (Hlen & Hnd & Hpos & _).
  assert (Hnames : names (components_from_array ion z b logN rf)
                   = generated_names ion N).
  { now rewrite names_components_from_array_eq,
      (shortest_equal z b logN rf N). }
  split.
  - rewrite components_from_array_checked_eq, Hnames. now rewrite Hvalid.
  - repeat (split; [assumption |]). exact Hpos.
Qed.

(** X17. Given components whose pairs of index and ion label (after the
    substitution of [x] for [*]) are all different, the second loop of
    the loader returns four entries for each, in the order of the
    components, [z], [b], [logN] and [rf] with their values and standard
    errors, when all the names it makes are valid, and raises [KeyError]
    when one of them is not. *)
Theorem second_loop_entries (components_to_add : list comp_pars) :
  List.NoDup (map row_key components_to_add) ->
  add_components_checked valid_symbol_name components_to_add []
  = if forallb valid_symbol_name (row_names components_to_add)
    then Ok (flat_map entries_of_row components_to_add)
    else Raise KeyError.
Proof.
  intros Hnd. rewrite add_components_checked_fresh;
    [now rewrite names_rows_eq | exact Hnd | intros x c []].
Qed.

(** X18. The second loop of the loader fails in one way only: [pars.add]
    raises [KeyError] for a name that is not valid. Each standard error
    is stored in the entry added just before under the same name, so
    the lookups never fail, and the loop returns whenever all the names
    of the components are valid, whatever the parameter set holds
    already. *)
Theorem second_loop_fails_only_in_add (components_to_add : list comp_pars)
    (pars : lmfit_Parameters) :
  ((exists pars',
      add_components_checked valid_symbol_name components_to_add pars
        = Ok pars') \/
   (add_components_checked valid_symbol_name components_to_add pars
      = Raise KeyError /\
    forallb valid_symbol_name (row_names components_to_add) = false)) /\
  (forallb valid_symbol_name (row_names components_to_add) = true ->
   exists pars',
     add_components_checked valid_symbol_name components_to_add pars
       = Ok pars').
Proof.
  assert (Hcases :
    (exists pars',
       add_components_checked valid_symbol_name components_to_add pars
         = Ok pars') \/
    (add_components_checked valid_symbol_name components_to_add pars
       = Raise KeyError /\
     forallb valid_symbol_name (row_names components_to_add) = false)).
  { revert pars. induction components_to_add as [| c rows IH]; intros pars;
      cbn [add_components_checked]; [left; now eexists |].
    unfold row_names. cbn [flat_map]. rewrite forallb_app.
    fold (row_names rows).
    destruct (add_component_checked_cases pars c) as [-> | [-> Hc]].
    - destruct (add_component_total pars c) as (pars1 & ->). cbn [bind].
      destruct (IH pars1) as [Hok | [Hraise Hrows]]; [now left |].
      right. split; [exact Hraise |]. rewrite Hrows. apply andb_false_r.
    - right. split; [reflexivity |].
      unfold entries_of_row in Hc. cbn [names map fst] in Hc.
      cbn [fields map]. now rewrite Hc. }
  split; [exact Hcases |].
  intros Hvalid. destruct Hcases as [Hok | [_ Hinvalid]]; [exact Hok |].
  rewrite Hvalid in Hinvalid. discriminate Hinvalid.
Qed.

(** X21. The builder stops at the shortest of its four sequences, without
    an error of its own. When the names for the indices below the
    shortest length are valid, it returns four entries for each of these
    indices, holding the values found there as they are (no absolute
    value, no clamping), and no entry for an index at or beyond that
    length, so the surplus values of the longer sequences are dropped;
    when one of these names is not valid, it raises [KeyError]. *)
Theorem builder_stops_at_shortest (ion : string) (z b logN rf : list Q) :
  (forallb valid_symbol_name
     (generated_names ion (shortest z b logN rf)) = true ->
   exists pars,
     components_from_array_checked valid_symbol_name ion z b logN rf
       = Ok pars /\
     length pars = (4 * shortest z b logN rf)%nat /\
     (forall i, (i < shortest z b logN rf)%nat ->
        exists zi bi ni ri,
          z !! i = Some zi /\ b !! i = Some bi /\
          logN !! i = Some ni /\ rf !! i = Some ri /\
          Parameters_get (fmt_name "z" (Z.of_nat i) ion) pars
            = Ok (mkParameter zi None) /\
          Parameters_get (fmt_name "b" (Z.of_nat i) ion) pars
            = Ok (mkParameter bi None) /\
          Parameters_get (fmt_name "logN" (Z.of_nat i) ion) pars
            = Ok (mkParameter ni None) /\
          Parameters_get (fmt_name "rf" (Z.of_nat i) ion) pars
            = Ok (mkParameter ri None)) /\
     (forall i f, (shortest z b logN rf <= i)%nat -> In f fields ->
        Parameters_get (fmt_name f (Z.of_nat i) ion) pars
          = Raise KeyError)) /\
  (forallb valid_symbol_name
     (generated_names ion (shortest z b logN rf)) = false ->
   components_from_array_checked valid_symbol_name ion z b logN rf
     = Raise KeyError).
Proof.
  rewrite components_from_array_checked_eq, names_components_from_array_eq.
  split; intros Hvalid; rewrite Hvalid; [| reflexivity].
  exists (components_from_array ion z b logN rf).
  split; [reflexivity |]. apply components_from_array_shortest.
Qed.

(** X23. For an ion label without [*] and components numbered 0, 1, 2, ...
    in their order, the second loop of the loader and the array builder
    end alike: both raise [KeyError], or both return, and then they
    return the same names in the same order with the same values,
    differing in the standard errors only. *)
Theorem loader_loop_matches_builder (ion : string) (rows : list comp_pars) :
  has_char "*" ion = false ->
  Forall (fun c => cp_ion c = ion) rows ->
  map cp_num rows = map Z.of_nat (seq 0 (length rows)) ->
  match add_components_checked valid_symbol_name rows [],
        components_from_array_checked valid_symbol_name ion
          (map cp_z rows) (map cp_b rows) (map cp_logN rows)
          (map cp_rf rows)
  with
  | Ok pars, Ok pars' =>
      map (fun e => (fst e, value (snd e))) pars
      = map (fun e => (fst e, value (snd e))) pars'
  | Raise e, Raise e' => e = e'
  | _, _ => False
  end.
Proof.
  intros Hstar Hion Hnum.
  destruct (loop_values_match_builder ion rows Hstar Hion Hnum)
    as (pars & Hpars & Hsame).
  assert (Hnd : List.NoDup (map row_key rows)).
  { apply (NoDup_map_inv fst). rewrite map_map.
    change (map (fun c => fst (row_key c)) rows) with (map cp_num rows).
    rewrite Hnum. apply Finite.Injective_map_NoDup; [| apply seq_NoDup].
    intros a a' H. now apply Nat2Z.inj. }
  rewrite (add_components_fresh rows [] Hnd) in Hpars by (intros x c []).
  injection Hpars as <-. cbn [app] in Hsame.
  assert (Hnames : names (flat_map entries_of_row rows)
                   = names (components_from_array ion (map cp_z rows)
                              (map cp_b rows) (map cp_logN rows)
                              (map cp_rf rows))).
  { unfold names. pose proof (f_equal (map fst) Hsame) as Hfst.
    rewrite !map_map in Hfst. exact Hfst. }
  rewrite (add_components_checked_fresh rows [] Hnd) by (intros x c []).
  rewrite components_from_array_checked_eq, <- Hnames. cbn [app].
  destruct (forallb valid_symbol_name (names (flat_map entries_of_row rows)));
    [exact Hsame | reflexivity].
Qed.

End NameCheckFacts.

(** * The name check on examples *)

(** A label with a hyphen makes names the library refuses: the builder
    raises at its first call of [pars.add], for sequences of equal length
    and a label without [*]. *)
Lemma components_from_array_invalid_name_counterexample :
  has_char "*" "Fe-II" = false /\
  identifier "z0_Fe-II" = false /\
  components_from_array_checked identifier "Fe-II"
    [0.1; 0.2]%Q [5; 10]%Q [13; 14]%Q [0.9; 1.0]%Q
  = Raise KeyError.
Proof. repeat split; vm_compute; reflexivity. Qed.

Lemma components_from_array_valid_names_witness :
  forallb identifier (generated_names "MgII" 2) = true /\
  exists pars,
    components_from_array_checked identifier "MgII"
      [0.1; 0.2]%Q [5; 10]%Q [13; 14]%Q [0.9; 1.0]%Q = Ok pars /\
    length pars = 8%nat.
Proof.
  assert (Hvalid : forallb identifier (generated_names "MgII" 2) = true)
    by (vm_compute; reflexivity).
  split; [exact Hvalid |].
  destruct (components_from_array_valid_names identifier "MgII"
              [0.1; 0.2]%Q [5; 10]%Q [13; 14]%Q [0.9; 1.0]%Q 2
              eq_refl eq_refl eq_refl eq_refl eq_refl Hvalid)
    as [(pars & Hok & Hlen & _) _].
  exists pars. split; [exact Hok | exact Hlen].
Defined.

(** For the label [Al*] the first name the builder makes is refused. *)
Example components_from_array_Al_star_raises :
  identifier "z0_Al*" = false /\
  components_from_array_checked identifier "Al*"
    [0.1; 0.2; 0.3]%Q [5; 10; 15]%Q [13; 14; 15]%Q [0.9; 1.0; 0.5]%Q
  = Raise KeyError.
Proof. split; vm_compute; reflexivity. Qed.

Lemma second_loop_entries_witness :
  add_components_checked identifier
    [ mkCompPars 0 "FeII" 0.52341 12.3 14.52 0.85 0.00002 0.4 0.03 0.02;
      mkCompPars 1 "Al*" 0.52350 8.1 13.9 1 0.00003 0.6 0.05 0.01 ] []
  = Ok [ ("z0_FeII", mkParameter 0.52341 (Some 0.00002%Q));
         ("b0_FeII", mkParameter 12.3 (Some 0.4%Q));
         ("logN0_FeII", mkParameter 14.52 (Some 0.03%Q));
         ("rf0_FeII", mkParameter 0.85 (Some 0.02%Q));
         ("z1_Alx", mkParameter 0.52350 (Some 0.00003%Q));
         ("b1_Alx", mkParameter 8.1 (Some 0.6%Q));
         ("logN1_Alx", mkParameter 13.9 (Some 0.05%Q));
         ("rf1_Alx", mkParameter 1 (Some 0.01%Q)) ].
Proof.
  apply (second_loop_entries identifier
    [ mkCompPars 0 "FeII" 0.52341 12.3 14.52 0.85 0.00002 0.4 0.03 0.02;
      mkCompPars 1 "Al*" 0.52350 8.1 13.9 1 0.00003 0.6 0.05 0.01 ]).
  repeat constructor; cbn [In map]; intros H;
    repeat (destruct H as [H | H]; [discriminate H |]); exact H.
Defined.

Lemma second_loop_fails_only_in_add_witness :
  forallb identifier
    (row_names [mkCompPars (-1) "Fe-II" 0.1 5 13 0.9 0.01 0.02 0.03 0.04])
  = false /\
  add_components_checked identifier
    [mkCompPars (-1) "Fe-II" 0.1 5 13 0.9 0.01 0.02 0.03 0.04] []
  = Raise KeyError /\
  exists pars',
    add_components_checked identifier
      [mkCompPars 2 "Al*" 0.1 5 13 0.9 0.01 0.02 0.03 0.04] [] = Ok pars'.
Proof.
  split; [vm_compute; reflexivity |]. split; [vm_compute; reflexivity |].
  apply (second_loop_fails_only_in_add identifier
           [mkCompPars 2 "Al*" 0.1 5 13 0.9 0.01 0.02 0.03 0.04] []).
  vm_compute; reflexivity.
Defined.

Lemma builder_stops_at_shortest_witness :
  forallb identifier
    (generated_names "MgII"
       (shortest [0.1; 0.2; 0.3]%Q [-5; -10]%Q [13; 14; 15]%Q
          [0.9; 1.5; 0.5]%Q)) = true /\
  exists pars,
    components_from_array_checked identifier "MgII"
      [0.1; 0.2; 0.3]%Q [-5; -10]%Q [13; 14; 15]%Q [0.9; 1.5; 0.5]%Q
    = Ok pars /\
    length pars = 8%nat /\
    Parameters_get "b1_MgII" pars = Ok (mkParameter (-10) None) /\
    Parameters_get "rf1_MgII" pars = Ok (mkParameter 1.5 None) /\
    Parameters_get "z2_MgII" pars = Raise KeyError.
Proof.
  assert (Hvalid : forallb identifier
            (generated_names "MgII"
               (shortest [0.1; 0.2; 0.3]%Q [-5; -10]%Q [13; 14; 15]%Q
                  [0.9; 1.5; 0.5]%Q)) = true) by (vm_compute; reflexivity).
  split; [exact Hvalid |].
  destruct (proj1 (builder_stops_at_shortest identifier "MgII"
                     [0.1; 0.2; 0.3]%Q [-5; -10]%Q [13; 14; 15]%Q
                     [0.9; 1.5; 0.5]%Q) Hvalid)
    as (pars & Hok & Hlen & Hin & Hout).
  exists pars. split; [exact Hok |]. split; [exact Hlen |].
  destruct (Hin 1%nat ltac:(vm_compute; lia))
    as (zi & bi & ni & ri & Hz & Hb & Hn & Hr & _ & Gb & _ & Grf).
  injection Hb as <-. injection Hr as <-.
  split; [exact Gb |]. split; [exact Grf |].
  apply (Hout 2%nat "z"); [vm_compute; lia | cbn; tauto].
Defined.

Lemma loader_loop_matches_builder_witness :
  match add_components_checked identifier
          [ mkCompPars 0 "FeII" 0.52341 12.3 14.52 0.85 0.00002 0.4 0.03 0.02;
            mkCompPars 1 "FeII" 0.52350 8.1 13.9 1 0.00003 0.6 0.05 0.01 ] [],
        components_from_array_checked identifier "FeII"
          [0.52341; 0.52350]%Q [12.3; 8.1]%Q [14.52; 13.9]%Q [0.85; 1]%Q
  with
  | Ok pars, Ok pars' =>
      map (fun e => (fst e, value (snd e))) pars
      = map (fun e => (fst e, value (snd e))) pars'
  | Raise e, Raise e' => e = e'
  | _, _ => False
  end.
Proof.
  apply (loader_loop_matches_builder identifier "FeII"
    [ mkCompPars 0 "FeII" 0.52341 12.3 14.52 0.85 0.00002 0.4 0.03 0.02;
      mkCompPars 1 "FeII" 0.52350 8.1 13.9 1 0.00003 0.6 0.05 0.01 ]).
  - reflexivity.
  - repeat constructor.
  - reflexivity.
Defined.
